(** * tui.h: event dispatch and render-diff core of the terminal UI runtime

    A shallow embedding of [Proof_of_Concept/tui.h].  C objects that the
    header reaches through pointers live in explicit stores (a [gmap] from
    addresses to values), the header's [static] globals are the fields of
    one [World] record, and every C function is a state transformer that
    can return, terminate the process ([exit]) or leave the defined
    behaviour of C (a null or out-of-bounds access, a read of an
    indeterminate value). *)

From Stdlib Require Import ZArith Lia.
From stdpp Require Import base numbers option list gmap strings.

Local Open Scope Z_scope.

(** ** Machine integers *)

(** [uint16_t]: arithmetic is reduced modulo 2^16. *)
Definition UINT16_MAX : Z := 65535.
Definition wrap16 (z : Z) : Z := z mod 65536.
Definition is_uint16 (z : Z) : Prop := 0 <= z <= UINT16_MAX.

(** [int] (32 bits, two's complement): what a [uint16_t] operand is
    promoted to before [+] and the comparisons. *)
Definition wrap_int (z : Z) : Z := (z + 2147483648) mod 4294967296 - 2147483648.
Definition int_add (a b : Z) : Z := wrap_int (a + b).

(** A C truth value as an [int], and an [int] converted to [bool]. *)
Definition of_bool (b : bool) : Z := if b then 1 else 0.
Definition to_bool (z : Z) : bool := negb (z =? 0).

(** ** Pointers *)

(** Addresses of objects; [NULL] is address 0.  Function pointers are
    addresses of code; a nullable one is an [option]. *)
Abbreviation ptr := N.
Definition NULL : ptr := 0%N.
Abbreviation fnptr := N.

(** ** Limits *)

Definition MAX_COMPONENTS : nat := 64.
Definition MAX_CHILDREN : nat := 64.

(** ** Events *)

Record ResizeEvent := { new_width : Z; new_height : Z }.

Inductive MouseAction := MOUSE_BUTTON_1 | MOUSE_BUTTON_2 | MOUSE_BUTTON_3 | MOUSE_MOVE.

Record MouseEvent := { mouse_x : Z; mouse_y : Z; mouse_action : MouseAction }.

Record KeyEvent := { key : Z }.

Inductive EventKind := END | RESIZE | MOUSE | KEY.

(** The anonymous union of [Event].  [Indeterminate] is the content of
    the union in an automatic [Event] nothing has been stored into. *)
Inductive EventUnion :=
| Indeterminate
| resizeEvent (r : ResizeEvent)
| mouseEvent (m : MouseEvent)
| keyEvent (k : KeyEvent).

(** A field of an automatic object holds [None] until it is assigned. *)
Record Event := {
  handled : option bool;
  kind : option EventKind;
  payload : EventUnion
}.

(** [Event e;] *)
Definition Event_uninitialized : Event :=
  {| handled := None; kind := None; payload := Indeterminate |}.

Definition set_handled (e : Event) (b : bool) : Event :=
  {| handled := Some b; kind := kind e; payload := payload e |}.
Definition set_kind (e : Event) (k : EventKind) : Event :=
  {| handled := handled e; kind := Some k; payload := payload e |}.
Definition set_payload (e : Event) (u : EventUnion) : Event :=
  {| handled := handled e; kind := kind e; payload := u |}.

(** ** Components *)

Record Position := { p_x : Z; p_y : Z; p_width : Z; p_height : Z }.

Inductive ComponentKind := Kind1 | Kind2.

(** [struct Component]; [num_children] is the length of [children], the
    single [context] is the global one. *)
Record Component := {
  parent : ptr;
  pos : Position;
  children : list ptr;
  onClick : option fnptr;
  onKeypress : option fnptr;
  render : option fnptr;
  resize : option fnptr;
  ckind : ComponentKind
}.

(** [inComponent]: the four comparisons are made on [int] after the
    integer promotions, and joined by the bitwise [&]. *)
Definition inComponent (c : Component) (x y : Z) : bool :=
  let p := pos c in
  to_bool
    (Z.land
       (Z.land
          (Z.land (of_bool (x >=? p_x p))
                  (of_bool (x <=? int_add (p_x p) (p_width p))))
          (of_bool (y >=? p_y p)))
       (of_bool (y <=? int_add (p_y p) (p_height p)))).

(** ** The virtual terminal buffer, as [writescreen] reads it *)

Record tmt_color_t := { col_r : Z; col_g : Z; col_b : Z; col_ansi : Z }.

Record TMTATTRS := {
  fg : tmt_color_t;
  bg : tmt_color_t;
  reverse : bool;
  attrs : Z
}.

Record TMTCHAR := { ch_c : Z; ch_a : TMTATTRS }.

Record TMTLINE := { dirty : bool; chars : list TMTCHAR }.

Record TMTSCREEN := { nline : nat; ncol : nat; lines : list TMTLINE }.

(** ** Results of a C function *)

Inductive Outcome (S A : Type) : Type :=
| Ret (a : A) (s : S)          (* returned [a] in state [s] *)
| Exited (status : Z) (s : S)  (* [exit(status)] was called in state [s] *)
| Fault.                       (* undefined behaviour *)
Arguments Ret {S A} a s.
Arguments Exited {S A} status s.
Arguments Fault {S A}.

Definition bind {S A B} (m : S -> Outcome S A) (k : A -> S -> Outcome S B)
  : S -> Outcome S B :=
  fun s => match m s with
           | Ret a s' => k a s'
           | Exited n s' => Exited n s'
           | Fault => Fault
           end.

Definition ret {S A} (a : A) : S -> Outcome S A := fun s => Ret a s.

Notation "x <- m ;; k" := (bind m (fun x => k))
  (at level 100, m at next level, right associativity).
Notation "m ;;; k" := (bind m (fun _ => k))
  (at level 100, right associativity).

(** ** The process environment: terminal, signals, locale *)

Inductive Signal := SIGINT | SIGTERM | SIGWINCH.

Inductive SigHandler :=
| SIG_DFL
| SIG_IGN
| sigwinch_handler
| sigint_sigterm_handler
| other_handler (f : fnptr).

(** [struct termios]: the local-mode flags and the rest of the structure. *)
Record termios := { c_lflag : Z; c_rest : list Z }.

(* The values of <termios.h> on Linux. *)
Definition ICANON : Z := 2.
Definition ECHO : Z := 8.

Inductive LocaleCategory := LC_CTYPE | LC_ALL.

(** The calls a process makes that are visible outside it. *)
Inductive Syscall :=
| sys_tcgetattr (fd : Z)
| sys_tcsetattr (fd : Z) (t : termios)
| sys_signal (s : Signal) (h : SigHandler)
| sys_setlocale (cat : LocaleCategory) (name : option string)
| sys_ioctl_winsz (fd : Z)
| sys_write (fd : Z) (bytes : string).

Record OS := {
  os_tio : termios;                 (* mode of the terminal on fd 1 *)
  os_sigint : SigHandler;
  os_sigterm : SigHandler;
  os_sigwinch : SigHandler;
  os_locale : option string;        (* current locale; [None]: the query fails *)
  os_locales : list string;         (* locales that can be selected *)
  os_ws_row : Z;                    (* [struct winsize] of the terminal *)
  os_ws_col : Z;
  os_trace : list Syscall           (* calls made so far, oldest first *)
}.

Definition log (c : Syscall) (o : OS) : OS :=
  {| os_tio := os_tio o; os_sigint := os_sigint o; os_sigterm := os_sigterm o;
     os_sigwinch := os_sigwinch o; os_locale := os_locale o;
     os_locales := os_locales o; os_ws_row := os_ws_row o;
     os_ws_col := os_ws_col o; os_trace := os_trace o ++ [c] |}.

Definition os_handler (s : Signal) (o : OS) : SigHandler :=
  match s with
  | SIGINT => os_sigint o
  | SIGTERM => os_sigterm o
  | SIGWINCH => os_sigwinch o
  end.

(** [signal(s, h)]: installs [h], returns the handler it replaces. *)
Definition os_signal (s : Signal) (h : SigHandler) (o : OS) : SigHandler * OS :=
  let o' := log (sys_signal s h) o in
  (os_handler s o,
   {| os_tio := os_tio o';
      os_sigint := match s with SIGINT => h | _ => os_sigint o' end;
      os_sigterm := match s with SIGTERM => h | _ => os_sigterm o' end;
      os_sigwinch := match s with SIGWINCH => h | _ => os_sigwinch o' end;
      os_locale := os_locale o'; os_locales := os_locales o';
      os_ws_row := os_ws_row o'; os_ws_col := os_ws_col o';
      os_trace := os_trace o' |}).

Definition os_tcgetattr (fd : Z) (o : OS) : termios * OS :=
  (os_tio o, log (sys_tcgetattr fd) o).

Definition os_tcsetattr (fd : Z) (t : termios) (o : OS) : unit * OS :=
  let o' := log (sys_tcsetattr fd t) o in
  (tt,
   {| os_tio := t; os_sigint := os_sigint o'; os_sigterm := os_sigterm o';
      os_sigwinch := os_sigwinch o'; os_locale := os_locale o';
      os_locales := os_locales o'; os_ws_row := os_ws_row o';
      os_ws_col := os_ws_col o'; os_trace := os_trace o' |}).

(** [setlocale(cat, name)]: with [name = NULL] a query; otherwise selects
    [name] when it is available and reports the failure by [NULL]. *)
Definition os_setlocale (cat : LocaleCategory) (name : option string) (o : OS)
  : option string * OS :=
  let o' := log (sys_setlocale cat name) o in
  match name with
  | None => (os_locale o, o')
  | Some n =>
      if bool_decide (n ∈ os_locales o) then
        (Some n,
         {| os_tio := os_tio o'; os_sigint := os_sigint o';
            os_sigterm := os_sigterm o'; os_sigwinch := os_sigwinch o';
            os_locale := Some n; os_locales := os_locales o';
            os_ws_row := os_ws_row o'; os_ws_col := os_ws_col o';
            os_trace := os_trace o' |})
      else (None, o')
  end.

Definition os_ioctl_winsz (fd : Z) (o : OS) : (Z * Z) * OS :=
  ((os_ws_row o, os_ws_col o), log (sys_ioctl_winsz fd) o).

Definition os_write (fd : Z) (bytes : string) (o : OS) : unit * OS :=
  (tt, log (sys_write fd bytes) o).

(** ** Global state *)

Record GlobalContext := {
  screen : ptr;
  window_width : Z;
  window_height : Z;
  _needs_resize : bool;
  _exiting : bool;
  (* Things towards the back of the list are on top of the ones at the front. *)
  num_components : Z;
  componentList : list ptr;
  rootComponent : ptr
}.

Definition set_needs_resize (b : bool) (g : GlobalContext) : GlobalContext :=
  {| screen := screen g; window_width := window_width g;
     window_height := window_height g; _needs_resize := b;
     _exiting := _exiting g; num_components := num_components g;
     componentList := componentList g; rootComponent := rootComponent g |}.

Definition set_exiting (b : bool) (g : GlobalContext) : GlobalContext :=
  {| screen := screen g; window_width := window_width g;
     window_height := window_height g; _needs_resize := _needs_resize g;
     _exiting := b; num_components := num_components g;
     componentList := componentList g; rootComponent := rootComponent g |}.

Definition set_window (w h : Z) (g : GlobalContext) : GlobalContext :=
  {| screen := screen g; window_width := w; window_height := h;
     _needs_resize := _needs_resize g; _exiting := _exiting g;
     num_components := num_components g; componentList := componentList g;
     rootComponent := rootComponent g |}.

Definition set_componentList (l : list ptr) (g : GlobalContext) : GlobalContext :=
  {| screen := screen g; window_width := window_width g;
     window_height := window_height g; _needs_resize := _needs_resize g;
     _exiting := _exiting g; num_components := num_components g;
     componentList := l; rootComponent := rootComponent g |}.

Definition set_screen (p : ptr) (g : GlobalContext) : GlobalContext :=
  {| screen := p; window_width := window_width g;
     window_height := window_height g; _needs_resize := _needs_resize g;
     _exiting := _exiting g; num_components := num_components g;
     componentList := componentList g; rootComponent := rootComponent g |}.

(** The registry proper: the first [num_components] slots of the array. *)
Definition registry (g : GlobalContext) : list ptr :=
  take (Z.to_nat (num_components g)) (componentList g).

(** Control sequences.  [write(1, s, sizeof(s))] sends the array with its
    terminating NUL. *)
Definition ESC : string := String (Ascii.ascii_of_nat 27) "".
Definition NUL : string := String (Ascii.ascii_of_nat 0) "".
Definition LF : string := String (Ascii.ascii_of_nat 10) "".

Definition init_term : string :=
  ESC +:+ "?1049h"      (* Alt buffer *)
  +:+ ESC +:+ "[2J"     (* Clear screen *)
  +:+ ESC +:+ "[H"      (* Cursor to home position *)
  +:+ ESC +:+ "[?25l"   (* Hide cursor *)
  +:+ ESC +:+ "[?1000l" (* Enable mouse events *)
  +:+ NUL.

Definition restore_term : string :=
  ESC +:+ "[?1049h"     (* Return to alt buffer if we somehow escaped *)
  +:+ ESC +:+ "[?1000l" (* No mouse events *)
  +:+ ESC +:+ "[2J"     (* Clear screen *)
  +:+ ESC +:+ "[?25h"   (* Show cursor *)
  +:+ ESC +:+ "[?1049l" (* Return to main buffer *)
  +:+ NUL.

(** The UTF-8 bytes of a code point, and the array [replacement_char] of
    [writescreen] without its terminator: the universal character name
    U+FFFD in an execution character set that is UTF-8. *)
Definition utf8_encode (cp : Z) : list Z :=
  if cp <? 128 then [cp]
  else if cp <? 2048 then
    [Z.lor 192 (Z.shiftr cp 6); Z.lor 128 (Z.land cp 63)]
  else if cp <? 65536 then
    [Z.lor 224 (Z.shiftr cp 12); Z.lor 128 (Z.land (Z.shiftr cp 6) 63);
     Z.lor 128 (Z.land cp 63)]
  else
    [Z.lor 240 (Z.shiftr cp 18); Z.lor 128 (Z.land (Z.shiftr cp 12) 63);
     Z.lor 128 (Z.land (Z.shiftr cp 6) 63); Z.lor 128 (Z.land cp 63)].

Definition replacement_char : list Z := [239; 191; 189].

(** [sprintf(buf, fmt)] with no further argument: a format without a
    conversion is copied as it is and its length returned; one with [%]
    reads arguments that were not passed. *)
Definition sprintf0 (fmt : list Z) : option (list Z * Z) :=
  if bool_decide (37 ∈ fmt) then None else Some (fmt, Z.of_nat (length fmt)).

(** The effective style of a cell: reverse video swaps the colours and is
    cleared. *)
Definition effective_attrs (a : TMTATTRS) : TMTATTRS :=
  if reverse a then
    {| fg := bg a; bg := fg a; reverse := false; attrs := attrs a |}
  else a.

Section Runtime.

(** What the header leaves to others: the state of the application,
    the virtual terminal library (libtmt), the locale's conversion and
    the code behind the function pointers of the components. *)
Context {App : Type} {TMT : Type}.

Record World := {
  tui_globalcontext : GlobalContext;
  _tui_active : Z;
  _old_tio : termios;
  _old_sigwinch : SigHandler;
  _old_sigterm : SigHandler;
  _old_sigint : SigHandler;
  _old_locale : option string;
  heap : gmap N Component;     (* the [Component] objects *)
  tmts : gmap N TMT;           (* the [TMT] objects *)
  os : OS;
  app : App
}.

Definition M (A : Type) : Type := World -> Outcome World A.

Variable tmt_screen : TMT -> TMTSCREEN.
Variable tmt_write : TMT -> list Z -> TMT.
Variable tmt_open : Z -> Z -> gmap N TMT -> ptr * gmap N TMT.
Variable wctomb : Z -> option (list Z).
Variable call_onClick : fnptr -> MouseEvent -> M Z.
Variable call_onKeypress : fnptr -> KeyEvent -> M Z.
Variable call_render : fnptr -> ptr -> M unit.
Variable call_resize : fnptr -> Position -> M unit.

Definition with_context (g : GlobalContext) (w : World) : World :=
  {| tui_globalcontext := g; _tui_active := _tui_active w;
     _old_tio := _old_tio w; _old_sigwinch := _old_sigwinch w;
     _old_sigterm := _old_sigterm w; _old_sigint := _old_sigint w;
     _old_locale := _old_locale w; heap := heap w; tmts := tmts w;
     os := os w; app := app w |}.

Definition with_active (a : Z) (w : World) : World :=
  {| tui_globalcontext := tui_globalcontext w; _tui_active := a;
     _old_tio := _old_tio w; _old_sigwinch := _old_sigwinch w;
     _old_sigterm := _old_sigterm w; _old_sigint := _old_sigint w;
     _old_locale := _old_locale w; heap := heap w; tmts := tmts w;
     os := os w; app := app w |}.

Definition with_os (o : OS) (w : World) : World :=
  {| tui_globalcontext := tui_globalcontext w; _tui_active := _tui_active w;
     _old_tio := _old_tio w; _old_sigwinch := _old_sigwinch w;
     _old_sigterm := _old_sigterm w; _old_sigint := _old_sigint w;
     _old_locale := _old_locale w; heap := heap w; tmts := tmts w;
     os := o; app := app w |}.

Definition with_tmts (t : gmap N TMT) (w : World) : World :=
  {| tui_globalcontext := tui_globalcontext w; _tui_active := _tui_active w;
     _old_tio := _old_tio w; _old_sigwinch := _old_sigwinch w;
     _old_sigterm := _old_sigterm w; _old_sigint := _old_sigint w;
     _old_locale := _old_locale w; heap := heap w; tmts := t;
     os := os w; app := app w |}.

Definition with_old_tio (t : termios) (w : World) : World :=
  {| tui_globalcontext := tui_globalcontext w; _tui_active := _tui_active w;
     _old_tio := t; _old_sigwinch := _old_sigwinch w;
     _old_sigterm := _old_sigterm w; _old_sigint := _old_sigint w;
     _old_locale := _old_locale w; heap := heap w; tmts := tmts w;
     os := os w; app := app w |}.

Definition with_old_locale (l : option string) (w : World) : World :=
  {| tui_globalcontext := tui_globalcontext w; _tui_active := _tui_active w;
     _old_tio := _old_tio w; _old_sigwinch := _old_sigwinch w;
     _old_sigterm := _old_sigterm w; _old_sigint := _old_sigint w;
     _old_locale := l; heap := heap w; tmts := tmts w;
     os := os w; app := app w |}.

Definition with_old_handler (s : Signal) (h : SigHandler) (w : World) : World :=
  {| tui_globalcontext := tui_globalcontext w; _tui_active := _tui_active w;
     _old_tio := _old_tio w;
     _old_sigwinch := match s with SIGWINCH => h | _ => _old_sigwinch w end;
     _old_sigterm := match s with SIGTERM => h | _ => _old_sigterm w end;
     _old_sigint := match s with SIGINT => h | _ => _old_sigint w end;
     _old_locale := _old_locale w; heap := heap w; tmts := tmts w;
     os := os w; app := app w |}.

(** Elementary actions. *)
Definition get {A} (f : World -> A) : M A := fun w => Ret (f w) w.
Definition modify (f : World -> World) : M unit := fun w => Ret tt (f w).
Definition exit (status : Z) : M unit := fun w => Exited status w.
Definition fault {A} : M A := fun _ => Fault.
Definition when (b : bool) (m : M unit) : M unit :=
  if b then m else ret tt.

(** A call into the environment. *)
Definition sys {A} (f : OS -> A * OS) : M A :=
  fun w => let r := f (os w) in Ret (fst r) (with_os (snd r) w).

Definition fprintf_stderr (s : string) : M unit := sys (os_write 2 s).

(** [tui_PANIC()], as the header defines it by default. *)
Definition tui_PANIC : M unit := exit 1.

(** ** The Z-order registry *)

(** The loop of [raiseComponent], [n] iterations from index [i] on;
    [None]: a read past the array. *)
Fixpoint raise_loop (n i : nat) (c tmp : ptr) (components : list ptr)
  : option (list ptr) :=
  match n with
  | O => Some components
  | S n' =>
      match components !! i with
      | None => None
      | Some despot =>
          if (despot =? c)%N then Some (<[i := tmp]> components)
          else raise_loop n' (S i) c despot (<[i := tmp]> components)
      end
  end.

(* Move component to the front of the list *)
Definition raiseComponent (c : ptr) : M unit := fun w =>
  let nc := num_components (tui_globalcontext w) in
  let components := componentList (tui_globalcontext w) in
  if nc <=? 1 then Ret tt w
  else
    match components !! 0%nat with
    | None => Fault
    | Some tmp =>
        if (tmp =? c)%N then Ret tt w
        else
          match raise_loop (Z.to_nat nc - 1) 1 c tmp (<[0%nat := c]> components) with
          | None => Fault
          | Some components' =>
              Ret tt (with_context
                        (set_componentList components' (tui_globalcontext w)) w)
          end
    end.

(** ** Size, signals, set-up and tear-down *)

(* [updateSize].  The size check is compiled in where [unsigned short]
   is wider than 16 bits; elsewhere the fields of [struct winsize]
   cannot exceed [UINT16_MAX] and the check never fires. *)
Definition updateSize : M unit :=
  ws <- sys (os_ioctl_winsz 1) ;;
  when ((fst ws >? UINT16_MAX) || (snd ws >? UINT16_MAX))
       (fprintf_stderr ("Tui can't handle a terminal this big." +:+ LF) ;;;
        tui_PANIC) ;;;
  modify (fun w => with_context
                     (set_window (wrap16 (snd ws)) (wrap16 (fst ws))
                                 (tui_globalcontext w)) w).

(** The two signal handlers, as what they do to the state when they run. *)
Definition run_sigwinch_handler (w : World) : World :=
  with_context (set_needs_resize true (tui_globalcontext w)) w.
Definition run_sigint_sigterm_handler (w : World) : World :=
  with_context (set_exiting true (tui_globalcontext w)) w.

Definition tui_deinit : M unit := fun w =>
  if _tui_active w =? 0 then Ret tt w
  else
    (modify (with_active 0) ;;;
     (* Swap in old signal handlers *)
     h1 <- get _old_sigint ;;
     sys (os_signal SIGINT h1) ;;;
     h2 <- get _old_sigterm ;;
     sys (os_signal SIGTERM h2) ;;;
     h3 <- get _old_sigwinch ;;
     sys (os_signal SIGWINCH h3) ;;;
     (* Restore old terminal attributes *)
     t <- get _old_tio ;;
     sys (os_tcsetattr 1 t) ;;;
     (* Reset locale *)
     l <- get _old_locale ;;
     sys (os_setlocale LC_ALL l) ;;;
     (* Return the terminal to normal *)
     sys (os_write 1 restore_term)) w.

Definition tui_error (message : string) : M unit :=
  tui_deinit ;;;
  fprintf_stderr (message +:+ LF) ;;;
  tui_PANIC.

Definition tui_init : M unit :=
  (* Disable echo, disable canonical mode; record the old attributes. *)
  t <- sys (os_tcgetattr 1) ;;
  modify (with_old_tio t) ;;;
  sys (os_tcsetattr 1
              {| c_lflag := Z.land (c_lflag t)
                                   (Z.land (Z.lnot ECHO) (Z.lnot ICANON));
                 c_rest := c_rest t |}) ;;;
  (* Initialize the terminal *)
  sys (os_write 1 init_term) ;;;
  (* Copy the current locale, set new one *)
  l <- sys (os_setlocale LC_CTYPE None) ;;
  modify (with_old_locale l) ;;;
  when (bool_decide (l = None)) (tui_error "Could not query the locale.") ;;;
  r1 <- sys (os_setlocale LC_ALL (Some "C.UTF-8"%string)) ;;
  (if bool_decide (r1 = None) then
          r2 <- sys (os_setlocale LC_ALL (Some "en_US.UTF-8"%string)) ;;
          when (bool_decide (r2 = None))
               (tui_error "Could not set locale to utf8.")
        else ret tt) ;;;
  (* Initialize the global context and the component list *)
  modify (fun w =>
         with_context
           {| screen := screen (tui_globalcontext w);
              window_width := window_width (tui_globalcontext w);
              window_height := window_height (tui_globalcontext w);
              _needs_resize := false; _exiting := false;
              num_components := 0;
              componentList := replicate MAX_COMPONENTS NULL;
              rootComponent := NULL |} w) ;;;
  (* Install signal handlers, back up old ones *)
  h1 <- sys (os_signal SIGINT sigint_sigterm_handler) ;;
  modify (with_old_handler SIGINT h1) ;;;
  h2 <- sys (os_signal SIGTERM sigint_sigterm_handler) ;;
  modify (with_old_handler SIGTERM h2) ;;;
  h3 <- sys (os_signal SIGWINCH sigwinch_handler) ;;
  modify (with_old_handler SIGWINCH h3) ;;;
  (* Get the terminal size, init tmt *)
  updateSize ;;;
  modify (fun w =>
         let r := tmt_open (window_height (tui_globalcontext w))
                           (window_width (tui_globalcontext w)) (tmts w) in
         with_context (set_screen (fst r) (tui_globalcontext w))
                      (with_tmts (snd r) w)) ;;;
  modify (with_active 1).

(** ** The dispatcher *)

(** [*components[i]]: the slot read from the array, then the object it
    points to. *)
Definition component_at (i : Z) : M Component := fun w =>
  match componentList (tui_globalcontext w) !! Z.to_nat i with
  | None => Fault
  | Some p =>
      match heap w !! p with
      | None => Fault
      | Some c => Ret c w
      end
  end.

(** [e.keyEvent] and [e.mouseEvent]: the member last stored. *)
Definition read_keyEvent (e : Event) : M KeyEvent :=
  match payload e with keyEvent k => ret k | _ => fault end.
Definition read_mouseEvent (e : Event) : M MouseEvent :=
  match payload e with mouseEvent m => ret m | _ => fault end.

(** The [for] loop of [handle_event] from counter [i] on, run on the
    local [e].  The counter is a [uint16_t]; it grows by one per turn
    and the loop ends before it can wrap, so [fuel] turns from 0 are
    enough when [fuel] is 2^16. *)
Fixpoint dispatch_loop (fuel : nat) (i : Z) (e : Event) : M Event :=
  match fuel with
  | O => fault
  | S fuel' =>
      nc <- get (fun w => num_components (tui_globalcontext w)) ;;
      if negb (i <? nc) then ret e
      else
        match kind e with
        | None => fault
        | Some KEY =>
            c <- component_at i ;;
            match onKeypress c with
            | Some f =>
                k <- read_keyEvent e ;;
                r <- call_onKeypress f k ;;
                let e' := set_handled e (to_bool r) in
                if to_bool r then ret e'
                else dispatch_loop fuel' (wrap16 (i + 1)) e'
            | None => dispatch_loop fuel' (wrap16 (i + 1)) e
            end
        | Some MOUSE =>
            c <- component_at i ;;
            match onClick c with
            | Some f =>
                m <- read_mouseEvent e ;;
                if inComponent c (mouse_x m) (mouse_y m) then
                  r <- call_onClick f m ;;
                  let e' := set_handled e (to_bool r) in
                  if to_bool r then ret e'
                  else dispatch_loop fuel' (wrap16 (i + 1)) e'
                else dispatch_loop fuel' (wrap16 (i + 1)) e
            | None => dispatch_loop fuel' (wrap16 (i + 1)) e
            end
        | Some _ => dispatch_loop fuel' (wrap16 (i + 1)) e
        end
  end.

Definition dispatch_fuel : nat := Z.to_nat 65536.

(** The resize branch: the body of [if (tui_globalcontext._needs_resize)]. *)
Definition handle_resize (e : Event) : M Event :=
  modify (fun w => with_context
                     (set_needs_resize false (tui_globalcontext w)) w) ;;;
  (* Ask the OS for the new size *)
  updateSize ;;;
  (* Bubble resizes down *)
  g <- get tui_globalcontext ;;
  root <- (fun w => match heap w !! rootComponent g with
                    | Some c => Ret c w
                    | None => Fault
                    end) ;;
  match resize root with
  | None => fault
  | Some f =>
      call_resize f {| p_x := 0; p_y := 0; p_width := window_width g;
                       p_height := window_height g |}
  end ;;;
  (* return resize info *)
  g' <- get tui_globalcontext ;;
  ret (set_payload (set_handled (set_kind e RESIZE) true)
         (resizeEvent {| new_width := window_width g';
                         new_height := window_height g' |})).

Definition handle_event : M Event :=
  a <- get _tui_active ;;
  when (a =? 0) (tui_error "Root component not initialized.") ;;;
  root <- get (fun w => rootComponent (tui_globalcontext w)) ;;
  when (negb (root =? NULL)%N) (tui_error "Tui is not active.") ;;;
  let e := Event_uninitialized in
  exiting <- get (fun w => _exiting (tui_globalcontext w)) ;;
  if exiting then
    tui_deinit ;;;
    ret (set_handled (set_kind e END) true)
  else
    (* Resize in response to SIGWINCH *)
    needs_resize <- get (fun w => _needs_resize (tui_globalcontext w)) ;;
    if needs_resize then handle_resize e
    else dispatch_loop dispatch_fuel 0 e.

(** ** The render-diff pass *)

(** The bytes [writescreen] hands to [tmt_write] for a character: the
    first [cbuflen] bytes of [cbuffer]. *)
Definition encode_char (c : Z) : option (list Z) :=
  match wctomb c with
  | Some bytes => Some bytes
  | None =>
      match sprintf0 replacement_char with
      | Some (cbuffer, wcret) => Some (take (Z.to_nat wcret) cbuffer)
      | None => None
      end
  end.

(** One turn of the inner loop, on the screen object at [scr] with the
    output going to the object at [tmt]; the result is the buffer
    written. *)
Definition write_cell (scr tmt : ptr) (lnum cnum : nat) : M (list Z) := fun w =>
  match tmts w !! scr with
  | None => Fault
  | Some vt =>
      match lines (tmt_screen vt) !! lnum with
      | None => Fault
      | Some line =>
          match chars line !! cnum with
          | None => Fault
          | Some ch =>
              let attrs := effective_attrs (ch_a ch) in
              match encode_char (ch_c ch) with
              | None => Fault
              | Some cbuffer =>
                  match tmts w !! tmt with
                  | None => Fault
                  | Some target =>
                      Ret cbuffer
                          (with_tmts (<[tmt := tmt_write target cbuffer]> (tmts w)) w)
                  end
              end
          end
      end
  end.

(** [n] turns of the inner loop from column [cnum] on. *)
Fixpoint write_cells (scr tmt : ptr) (lnum cnum n : nat) : M (list (list Z)) :=
  match n with
  | O => ret []
  | S n' =>
      b <- write_cell scr tmt lnum cnum ;;
      bs <- write_cells scr tmt lnum (S cnum) n' ;;
      ret (b :: bs)
  end.

(** One turn of the outer loop. *)
Definition write_line (scr tmt : ptr) (ncol lnum : nat) : M (list (list Z)) :=
  fun w =>
  match tmts w !! scr with
  | None => Fault
  | Some vt =>
      match lines (tmt_screen vt) !! lnum with
      | None => Fault
      | Some line =>
          if negb (dirty line) then Ret [] w
          else write_cells scr tmt lnum 0 ncol w
      end
  end.

(** [n] turns of the outer loop from line [lnum] on. *)
Fixpoint write_lines (scr tmt : ptr) (ncol lnum n : nat) : M (list (list Z)) :=
  match n with
  | O => ret []
  | S n' =>
      bs <- write_line scr tmt ncol lnum ;;
      rest <- write_lines scr tmt ncol (S lnum) n' ;;
      ret (bs ++ rest)
  end.

(** [writescreen(tmt)]; the result lists the buffers passed to
    [tmt_write], in order. *)
Definition writescreen (tmt : ptr) : M (list (list Z)) := fun w =>
  let scr := screen (tui_globalcontext w) in
  match tmts w !! scr with
  | None => Fault
  | Some vt =>
      write_lines scr tmt (ncol (tmt_screen vt)) 0 (nline (tmt_screen vt)) w
  end.

Definition render_window : M (list (list Z)) :=
  g <- get tui_globalcontext ;;
  root <- (fun w => match heap w !! rootComponent g with
                    | Some c => Ret c w
                    | None => Fault
                    end) ;;
  match render root with
  | None => fault
  | Some f => call_render f (screen g)
  end ;;;
  g' <- get tui_globalcontext ;;
  writescreen (screen g').

End Runtime.


(** * Specification vocabulary and closed instances *)

Definition is_position (p : Position) : Prop :=
  is_uint16 (p_x p) /\ is_uint16 (p_y p) /\
  is_uint16 (p_width p) /\ is_uint16 (p_height p).

(** A stand-in for a libtmt terminal in closed examples: the grid, and
    the buffers fed to it.  Its [vt_write] records the buffer; like the
    library's [tmt_write] it never clears a dirty flag. *)
Record VT := { vt_screen : TMTSCREEN; vt_fed : list (list Z) }.

Definition vt_write (vt : VT) (bytes : list Z) : VT :=
  {| vt_screen := vt_screen vt; vt_fed := vt_fed vt ++ [bytes] |}.

Definition vt_open (rows cols : Z) (t : gmap N VT) : ptr * gmap N VT :=
  let blank := {| ch_c := 32;
                  ch_a := {| fg := {| col_r := 0; col_g := 0; col_b := 0; col_ansi := 0 |};
                             bg := {| col_r := 0; col_g := 0; col_b := 0; col_ansi := 0 |};
                             reverse := false; attrs := 0 |} |} in
  let line := {| dirty := true; chars := replicate (Z.to_nat cols) blank |} in
  (100%N,
   <[100%N := {| vt_screen := {| nline := Z.to_nat rows; ncol := Z.to_nat cols;
                                 lines := replicate (Z.to_nat rows) line |};
                 vt_fed := [] |}]> t).

(** Example worlds keep a log of the handlers that ran as their
    application state. *)
Abbreviation ExWorld := (@World (list N) VT).

Definition example_os : OS :=
  {| os_tio := {| c_lflag := 10; c_rest := [] |};
     os_sigint := SIG_DFL; os_sigterm := SIG_DFL; os_sigwinch := SIG_IGN;
     os_locale := Some "C"%string;
     os_locales := ["C"%string; "C.UTF-8"%string];
     os_ws_row := 24; os_ws_col := 80; os_trace := [] |}.

Definition example_context (cl : list ptr) (nc : Z) (root : ptr)
    (resizing exiting : bool) : GlobalContext :=
  {| screen := 100%N; window_width := 80; window_height := 24;
     _needs_resize := resizing; _exiting := exiting;
     num_components := nc;
     componentList := cl ++ replicate (MAX_COMPONENTS - length cl) NULL;
     rootComponent := root |}.

Definition example_world (g : GlobalContext) (active : Z)
    (h : gmap N Component) (t : gmap N VT) : ExWorld :=
  {| tui_globalcontext := g; _tui_active := active;
     _old_tio := {| c_lflag := 10; c_rest := [] |};
     _old_sigwinch := SIG_IGN; _old_sigterm := SIG_DFL; _old_sigint := SIG_DFL;
     _old_locale := Some "C"%string;
     heap := h; tmts := t; os := example_os; app := [] |}.

(** What C1 asks of [raise(c)], from [w] to [w']: the same members, [c]
    in the back slot, the others in their order. *)
Definition raised_to_back {App TMT} (c : ptr) (w w' : @World App TMT) : Prop :=
  registry (tui_globalcontext w') ≡ₚ registry (tui_globalcontext w) /\
  last (registry (tui_globalcontext w')) = Some c /\
  filter (fun p => p <> c) (registry (tui_globalcontext w'))
  = filter (fun p => p <> c) (registry (tui_globalcontext w)).

(** Three registered components 1, 2, 3 (front to back). *)
Definition world_123 : ExWorld :=
  example_world (example_context [1%N; 2%N; 3%N] 3 NULL false false) 1 ∅ ∅.

(** [n] calls in a row. *)
Fixpoint repeat_call {S : Type} (n : nat) (m : S -> Outcome S unit)
  : S -> Outcome S unit :=
  match n with
  | O => ret tt
  | S n' => m ;;; repeat_call n' m
  end.

(** The calls one tear-down makes, given the saved values. *)
Definition deinit_calls {App TMT} (w : @World App TMT) : list Syscall :=
  [sys_signal SIGINT (_old_sigint w);
   sys_signal SIGTERM (_old_sigterm w);
   sys_signal SIGWINCH (_old_sigwinch w);
   sys_tcsetattr 1 (_old_tio w);
   sys_setlocale LC_ALL (_old_locale w);
   sys_write 1 restore_term].

(** Calls that write the terminal mode or a signal handler. *)
Definition is_restore_call (c : Syscall) : bool :=
  match c with
  | sys_tcsetattr _ _ | sys_signal _ _ => true
  | _ => false
  end.

(** An active world, as [tui_init] leaves it on the example system. *)
Definition world_active : ExWorld :=
  example_world (example_context [] 0 NULL false false) 1 ∅ ∅.

Section DispatchVocabulary.
Context {App TMT : Type}.
Variable call_onClick : fnptr -> MouseEvent -> @M App TMT Z.
Variable call_onKeypress : fnptr -> KeyEvent -> @M App TMT Z.

(** A key or mouse event as the event source would hand it over. *)
Definition is_input (e : Event) : Prop :=
  (kind e = Some KEY /\ exists k, payload e = keyEvent k) \/
  (kind e = Some MOUSE /\ exists m, payload e = mouseEvent m).

(** The handler [handle_event] invokes on component [c] for event [e],
    if any: the keypress handler for a key; for a mouse event the
    click handler, when the pointer is inside [c]. *)
Definition applicable_handler (e : Event) (c : Component) : option (@M App TMT Z) :=
  match kind e, payload e with
  | Some KEY, keyEvent k =>
      match onKeypress c with
      | Some f => Some (call_onKeypress f k)
      | None => None
      end
  | Some MOUSE, mouseEvent m =>
      match onClick c with
      | Some f =>
          if inComponent c (mouse_x m) (mouse_y m)
          then Some (call_onClick f m) else None
      | None => None
      end
  | _, _ => None
  end.

(** Slot [k] of the array holds a live component that gets no handler
    invoked for [e]. *)
Definition passed_over (w : @World App TMT) (e : Event) (k : nat) : Prop :=
  exists p c,
    componentList (tui_globalcontext w) !! k = Some p /\
    heap w !! p = Some c /\
    applicable_handler e c = None.

End DispatchVocabulary.

(** Handlers of the example worlds: the code at address [f] appends [f]
    to the log and reports the event handled when [f] is odd. *)
Definition log_call (f : N) (w : ExWorld) : ExWorld :=
  {| tui_globalcontext := tui_globalcontext w; _tui_active := _tui_active w;
     _old_tio := _old_tio w; _old_sigwinch := _old_sigwinch w;
     _old_sigterm := _old_sigterm w; _old_sigint := _old_sigint w;
     _old_locale := _old_locale w; heap := heap w; tmts := tmts w;
     os := os w; app := app w ++ [f] |}.

Definition ex_onClick (f : fnptr) (m : MouseEvent) : ExWorld -> Outcome ExWorld Z :=
  fun w => Ret (Z.of_N (f mod 2)) (log_call f w).
Definition ex_onKeypress (f : fnptr) (k : KeyEvent) : ExWorld -> Outcome ExWorld Z :=
  fun w => Ret (Z.of_N (f mod 2)) (log_call f w).
Definition ex_resize (f : fnptr) (p : Position) : ExWorld -> Outcome ExWorld unit :=
  fun w => Ret tt (log_call f w).
Definition ex_render (f : fnptr) (s : ptr) : ExWorld -> Outcome ExWorld unit :=
  fun w => Ret tt (log_call f w).

Definition example_component (p : Position) (click keypress rsz : option fnptr)
  : Component :=
  {| parent := NULL; pos := p; children := [];
     onClick := click; onKeypress := keypress;
     render := None; resize := rsz; ckind := Kind1 |}.

Definition click_at (x y : Z) : Event :=
  {| handled := None; kind := Some MOUSE;
     payload := mouseEvent {| mouse_x := x; mouse_y := y;
                              mouse_action := MOUSE_BUTTON_1 |} |}.

Definition key_pressed (k : Z) : Event :=
  {| handled := None; kind := Some KEY; payload := keyEvent {| key := k |} |}.

(** Two overlapping components, both containing the point (7, 7): 1 in
    the front slot, 2 in the back slot.  In [world_overlap] their
    handlers report the event handled (click 11 and 21, keypress 13 and
    23); in [world_decline] they decline (click 12 and 22). *)
Definition overlap_front (click keypress : option fnptr) : Component :=
  example_component {| p_x := 0; p_y := 0; p_width := 10; p_height := 10 |}
                    click keypress None.
Definition overlap_back (click keypress : option fnptr) : Component :=
  example_component {| p_x := 5; p_y := 5; p_width := 10; p_height := 10 |}
                    click keypress None.

Definition world_overlap : ExWorld :=
  example_world (example_context [1%N; 2%N] 2 NULL false false) 1
    (<[1%N := overlap_front (Some 11%N) (Some 13%N)]>
     (<[2%N := overlap_back (Some 21%N) (Some 23%N)]> ∅)) ∅.

Definition world_decline : ExWorld :=
  example_world (example_context [1%N; 2%N] 2 NULL false false) 1
    (<[1%N := overlap_front (Some 12%N) None]>
     (<[2%N := overlap_back (Some 22%N) None]> ∅)) ∅.

(** An active runtime whose root component 1 is assigned and registered,
    with the resize latch set. *)
Definition world_root_assigned : ExWorld :=
  example_world (example_context [1%N] 1 1%N true false) 1
    (<[1%N := example_component
                {| p_x := 0; p_y := 0; p_width := 80; p_height := 24 |}
                None None (Some 31%N)]> ∅) ∅.

(** An active runtime with no root component and the resize latch set. *)
Definition world_no_root_resize : ExWorld :=
  example_world (example_context [] 0 NULL true false) 1 ∅ ∅.

(** An active runtime with no root component, both latches clear, and one
    registered component that has no handler at all. *)
Definition world_no_handlers : ExWorld :=
  example_world (example_context [1%N] 1 NULL false false) 1
    (<[1%N := example_component
                {| p_x := 0; p_y := 0; p_width := 80; p_height := 24 |}
                None None None]> ∅) ∅.

(** An inactive runtime. *)
Definition world_inactive : ExWorld :=
  example_world (example_context [] 0 NULL false false) 0 ∅ ∅.

(** The grid of a screen as its row lengths, well-formedness against
    the declared size, and the dirty rows. *)
Definition screen_shape (s : TMTSCREEN) : list nat :=
  (fun l => length (chars l)) <$> lines s.

Definition well_formed_screen (s : TMTSCREEN) : Prop :=
  (nline s <= length (lines s))%nat /\
  Forall (fun k => ncol s <= k)%nat (screen_shape s).

Definition line_dirty (s : TMTSCREEN) (i : nat) : Prop :=
  exists l, lines s !! i = Some l /\ dirty l = true.

Definition line_clean (s : TMTSCREEN) (i : nat) : Prop :=
  exists l, lines s !! i = Some l /\ dirty l = false.

Section RenderVocabulary.
Context {App TMT : Type}.
Variable tmt_screen : TMT -> TMTSCREEN.
Variable tmt_write : TMT -> list Z -> TMT.

(** What the pass relies on from libtmt's [tmt_write]: it keeps the
    grid's dimensions, and it sets dirty flags but never clears one
    (clearing is [tmt_clean]'s job). *)
Definition write_keeps_shape : Prop :=
  forall vt bytes,
    screen_shape (tmt_screen (tmt_write vt bytes)) = screen_shape (tmt_screen vt).
Definition write_keeps_dirty : Prop :=
  forall vt bytes i,
    line_dirty (tmt_screen vt) i -> line_dirty (tmt_screen (tmt_write vt bytes)) i.

(** The state [w] during a pass started in [w0], reading the screen at
    [scr] and writing to [tmt]: only the terminal object at [tmt] has
    changed, the screen has its dimensions, and the rows that were
    dirty are dirty. *)
Definition pass_inv (scr tmt : ptr) (w0 w : @World App TMT) : Prop :=
  w = with_tmts (tmts w) w0 /\
  (forall p, p <> tmt -> tmts w !! p = tmts w0 !! p) /\
  is_Some (tmts w !! tmt) /\
  exists vt0 vt,
    tmts w0 !! scr = Some vt0 /\
    tmts w !! scr = Some vt /\
    screen_shape (tmt_screen vt) = screen_shape (tmt_screen vt0) /\
    forall i, line_dirty (tmt_screen vt0) i -> line_dirty (tmt_screen vt) i.

End RenderVocabulary.

(** A buffer is the conversion of some character or the replacement
    character. *)
Definition encoded (wctomb : Z -> option (list Z)) (b : list Z) : Prop :=
  b = replacement_char \/ exists c, wctomb c = Some b.

(** A 2 x 2 screen whose first row is dirty and second row clean; the
    character 55357 (a lone surrogate) has no encoding. *)
Definition example_attrs : TMTATTRS :=
  {| fg := {| col_r := 0; col_g := 0; col_b := 0; col_ansi := 7 |};
     bg := {| col_r := 0; col_g := 0; col_b := 0; col_ansi := 0 |};
     reverse := false; attrs := 0 |}.

Definition example_screen : TMTSCREEN :=
  {| nline := 2; ncol := 2;
     lines := [ {| dirty := true;
                   chars := [ {| ch_c := 104; ch_a := example_attrs |};
                              {| ch_c := 55357; ch_a := example_attrs |} ] |};
                {| dirty := false;
                   chars := [ {| ch_c := 111; ch_a := example_attrs |};
                              {| ch_c := 107; ch_a := example_attrs |} ] |} ] |}.

Definition ex_wctomb (c : Z) : option (list Z) :=
  if (55296 <=? c) && (c <=? 57343) then None
  else if (0 <=? c) && (c <=? 1114111) then Some (utf8_encode c)
  else None.

Definition world_screen : ExWorld :=
  example_world (example_context [] 0 NULL false false) 1 ∅
    (<[100%N := {| vt_screen := example_screen; vt_fed := [] |}]> ∅).


(** * Further vocabulary *)

(** The terminal mode [tui_init] installs: [ECHO] and [ICANON] cleared. *)
Definition raw_mode (t : termios) : termios :=
  {| c_lflag := Z.land (c_lflag t) (Z.land (Z.lnot ECHO) (Z.lnot ICANON));
     c_rest := c_rest t |}.

(** The locale [tui_init] selects on a system offering [locales]. *)
Definition utf8_locale (locales : list string) : option string :=
  if bool_decide ("C.UTF-8"%string ∈ locales) then Some "C.UTF-8"%string
  else if bool_decide ("en_US.UTF-8"%string ∈ locales) then Some "en_US.UTF-8"%string
  else None.

(** Three registered, live components 1, 2, 3 with keypress handlers 13,
    23 and 33. *)
Definition world_abc : ExWorld :=
  example_world (example_context [1%N; 2%N; 3%N] 3 NULL false false) 1
    (<[1%N := overlap_front None (Some 13%N)]>
     (<[2%N := overlap_back None (Some 23%N)]>
      (<[3%N := overlap_back None (Some 33%N)]> ∅))) ∅.

(** The output of a pass, read off the screen: for each of the first
    [nline] rows that is dirty, the conversion of each of its first
    [ncol] characters, with the replacement character where there is
    none. *)
Definition encode_bytes (wctomb : Z -> option (list Z)) (c : Z) : list Z :=
  match wctomb c with
  | Some bytes => bytes
  | None => replacement_char
  end.

Definition line_output (wctomb : Z -> option (list Z)) (ncol : nat)
    (line : TMTLINE) : list (list Z) :=
  if dirty line
  then (fun ch => encode_bytes wctomb (ch_c ch)) <$> take ncol (chars line)
  else [].

Definition screen_output (wctomb : Z -> option (list Z)) (s : TMTSCREEN)
  : list (list Z) :=
  concat (line_output wctomb (ncol s) <$> take (nline s) (lines s)).


(** The example screen behind a second terminal object, 200, to write
    to. *)
Definition world_two_terminals : ExWorld :=
  example_world (example_context [] 0 NULL false false) 1 ∅
    (<[100%N := {| vt_screen := example_screen; vt_fed := [] |}]>
     (<[200%N := {| vt_screen := example_screen; vt_fed := [] |}]> ∅)).


Definition no_locale_os : OS :=
  {| os_tio := os_tio example_os; os_sigint := os_sigint example_os;
     os_sigterm := os_sigterm example_os; os_sigwinch := os_sigwinch example_os;
     os_locale := None; os_locales := os_locales example_os;
     os_ws_row := 24; os_ws_col := 80; os_trace := [] |}.

Definition world_no_locale : ExWorld := with_os no_locale_os world_inactive.

(** A registry that claims two members with only the first slot filled:
    component 1 has no handler, slot 1 is null. *)
Definition world_null_slot : ExWorld :=
  example_world (example_context [1%N] 2 NULL false false) 1
    (<[1%N := overlap_front None None]> ∅) ∅.


(** * Properties *)

(** Running the elementary actions of a sequence. *)
Ltac run_actions := unfold bind, get, modify, sys, when.

(** ** Containment *)

Lemma int_add_uint16 (a b : Z) :
  is_uint16 a -> is_uint16 b -> int_add a b = a + b.
Proof.
  unfold is_uint16, UINT16_MAX, int_add, wrap_int. intros Ha Hb.
  rewrite Z.mod_small; lia.
Qed.

Lemma to_bool_land4 (a b c d : bool) :
  to_bool (Z.land (Z.land (Z.land (of_bool a) (of_bool b)) (of_bool c)) (of_bool d))
  = a && b && c && d.
Proof. destruct a, b, c, d; reflexivity. Qed.

(** C5. The containment test of [inComponent] is inclusive on the low and
    on the high edge of each axis: a point is inside exactly when
    [px >= x], [px <= x + width], [py >= y] and [py <= y + height]; a point
    with [px = x + width] is inside whenever its [py] is in range. *)
Theorem inComponent_inclusive (c : Component) (px py : Z) :
  is_position (pos c) -> is_uint16 px -> is_uint16 py ->
  (inComponent c px py = true <->
   px >= p_x (pos c) /\ px <= p_x (pos c) + p_width (pos c) /\
   py >= p_y (pos c) /\ py <= p_y (pos c) + p_height (pos c))
  /\ (px = p_x (pos c) + p_width (pos c) ->
      p_y (pos c) <= py <= p_y (pos c) + p_height (pos c) ->
      inComponent c px py = true).
Proof.
  intros (Hx & Hy & Hw & Hh) Hpx Hpy.
  assert (Hiff : inComponent c px py = true <->
    px >= p_x (pos c) /\ px <= p_x (pos c) + p_width (pos c) /\
    py >= p_y (pos c) /\ py <= p_y (pos c) + p_height (pos c)).
  { unfold inComponent. rewrite to_bool_land4.
    rewrite !int_add_uint16 by assumption.
    rewrite !andb_true_iff, !Z.geb_le, !Z.leb_le. lia. }
  split; [exact Hiff|].
  intros -> Hin. apply Hiff. unfold is_uint16 in *. lia.
Qed.

(** ** The registry *)

Section Registry.
Context {App TMT : Type}.
Implicit Types (w : @World App TMT) (c tmp : ptr) (l : list ptr).

(** The loop shifts the members before [c] one slot to the back and
    stops at the slot of [c]. *)
Lemma raise_loop_found l1 : forall n i c tmp done l2,
  length done = i -> c ∉ l1 -> (length l1 < n)%nat ->
  raise_loop n i c tmp (done ++ l1 ++ c :: l2) = Some (done ++ tmp :: l1 ++ l2).
Proof.
  induction l1 as [|a l1 IH]; intros n i c tmp done l2 Hlen Hnotin Hn;
    destruct n as [|n]; try (simpl in Hn; lia); simpl.
  - rewrite list_lookup_middle by done. rewrite N.eqb_refl.
    rewrite insert_app_r_alt by lia.
    replace (i - length done)%nat with 0%nat by lia. done.
  - rewrite list_lookup_middle by done.
    apply not_elem_of_cons in Hnotin as [Hne Hnotin].
    destruct (N.eqb_spec a c) as [->|_]; [done|].
    rewrite insert_app_r_alt by lia.
    replace (i - length done)%nat with 0%nat by lia. simpl.
    replace (done ++ tmp :: l1 ++ c :: l2) with ((done ++ [tmp]) ++ l1 ++ c :: l2)
      by (by rewrite <- app_assoc).
    rewrite (IH n (S i) c a (done ++ [tmp]) l2); simpl in *;
      [by rewrite <- app_assoc | rewrite length_app; simpl; lia | done | lia].
Qed.

Lemma registry_split w l :
  registry (tui_globalcontext w) = l ->
  componentList (tui_globalcontext w)
  = l ++ drop (Z.to_nat (num_components (tui_globalcontext w)))
              (componentList (tui_globalcontext w)).
Proof. intros <-. unfold registry. by rewrite take_drop. Qed.

Lemma take_registry_app l l' cl n :
  take n cl = l -> length l' = length l -> take n (l' ++ drop n cl) = l'.
Proof.
  intros Hl Hlen. destruct (decide (n <= length cl)%nat) as [Hle|Hgt].
  - apply take_app_length'. rewrite Hlen, <- Hl, length_take. lia.
  - rewrite drop_ge by lia. rewrite app_nil_r. apply take_ge.
    rewrite Hlen, <- Hl, length_take. lia.
Qed.

(** C1 (amended). With [c] registered, [raiseComponent c] returns; the
    registry keeps its members and its size, [c] is in the front slot
    (index 0), the other members keep their relative order, nothing
    outside the first [num_components] slots changes, and the call
    changes nothing when [c] is already in the front slot. *)
Theorem raiseComponent_moves_to_front w c l1 l2 :
  registry (tui_globalcontext w) = l1 ++ c :: l2 -> c ∉ l1 ->
  exists w',
    raiseComponent c w = Ret tt w' /\
    registry (tui_globalcontext w') = c :: l1 ++ l2 /\
    registry (tui_globalcontext w') ≡ₚ registry (tui_globalcontext w) /\
    length (registry (tui_globalcontext w'))
    = length (registry (tui_globalcontext w)) /\
    filter (fun p => p <> c) (registry (tui_globalcontext w'))
    = filter (fun p => p <> c) (registry (tui_globalcontext w)) /\
    w' = with_context
           (set_componentList
              ((c :: l1 ++ l2)
               ++ drop (Z.to_nat (num_components (tui_globalcontext w)))
                       (componentList (tui_globalcontext w)))
              (tui_globalcontext w)) w /\
    (l1 = [] -> w' = w) /\
    (num_components (tui_globalcontext w) <= 1 -> w' = w).
Proof.
  intros Hreg Hnotin.
  pose proof (registry_split w _ Hreg) as Hcl.
  set (n := Z.to_nat (num_components (tui_globalcontext w))) in *.
  set (rest := drop n (componentList (tui_globalcontext w))) in *.
  assert (Hn : (length l1 + 1 + length l2 <= n)%nat).
  { pose proof (f_equal length Hreg) as Hl. unfold registry in Hl. fold n in Hl.
    rewrite length_take, length_app in Hl. simpl in Hl. lia. }
  assert (Hregw' : forall w',
    w' = with_context (set_componentList ((c :: l1 ++ l2) ++ rest)
                         (tui_globalcontext w)) w ->
    registry (tui_globalcontext w') = c :: l1 ++ l2).
  { intros w' ->. unfold registry. simpl. fold n. unfold rest.
    apply (take_registry_app (l1 ++ c :: l2) (c :: l1 ++ l2)); [exact Hreg|].
    simpl. rewrite !length_app. simpl. lia. }
  assert (Hsame : l1 = [] ->
    with_context (set_componentList ((c :: l1 ++ l2) ++ rest)
                    (tui_globalcontext w)) w = w).
  { intros ->. simpl in *. rewrite <- Hcl. by destruct w as [[]]. }
  exists (with_context (set_componentList ((c :: l1 ++ l2) ++ rest)
                          (tui_globalcontext w)) w).
  split; [|split; [by apply Hregw'|
           split; [rewrite (Hregw' _ eq_refl), Hreg;
                   by rewrite Permutation_middle|
           split; [rewrite (Hregw' _ eq_refl), Hreg; simpl;
                   rewrite !length_app; simpl; lia|
           split; [rewrite (Hregw' _ eq_refl), Hreg|
           split; [done|split; [done|]]]]]]].
  - unfold raiseComponent. rewrite Hcl.
    destruct l1 as [|a l1].
    + rewrite Hsame by done. simpl. rewrite N.eqb_refl. by destruct (_ <=? 1).
    + simpl in Hn. destruct (Z.leb_spec (num_components (tui_globalcontext w)) 1);
        [lia|].
      apply not_elem_of_cons in Hnotin as [Hne Hnotin]. simpl.
      destruct (N.eqb_spec a c) as [->|_]; [done|].
      fold n.
      replace (c :: (l1 ++ c :: l2) ++ rest)
        with ([c] ++ l1 ++ c :: (l2 ++ rest))
        by (simpl; by rewrite <- app_assoc).
      rewrite (raise_loop_found l1 (n - 1) 1 c a [c] (l2 ++ rest));
        [|done|done|lia].
      simpl. by rewrite <- !app_assoc.
  - rewrite filter_cons_False by naive_solver.
    rewrite !filter_app. rewrite (filter_cons_False _ c) by naive_solver. done.
  - intros Hle. apply Hsame. destruct l1; [done|]. simpl in Hn. lia.
Qed.

End Registry.

(** C1, on [world_123]: raising the member in the back slot moves it to
    the front slot; it is not in the back slot afterwards, and the call
    was not a no-op although the member was the back one. *)
Lemma raiseComponent_not_to_back :
  registry (tui_globalcontext world_123) = [1%N; 2%N; 3%N] /\
  last (registry (tui_globalcontext world_123)) = Some 3%N /\
  exists w' : ExWorld,
    raiseComponent 3%N world_123 = Ret tt w' /\
    registry (tui_globalcontext w') = [3%N; 1%N; 2%N] /\
    last (registry (tui_globalcontext w')) <> Some 3%N /\
    ~ raised_to_back 3%N world_123 w' /\
    w' <> world_123.
Proof.
  split; [reflexivity|]. split; [reflexivity|].
  eexists. split; [vm_compute; reflexivity|].
  split; [reflexivity|].
  split; [discriminate|].
  split.
  - intros (_ & Hlast & _). discriminate Hlast.
  - intros Heq. apply (f_equal (fun w => registry (tui_globalcontext w))) in Heq.
    discriminate Heq.
Qed.

(** Raising the middle member of [world_123]. *)
Lemma raiseComponent_moves_to_front_witness :
  exists w' : ExWorld,
    raiseComponent 2%N world_123 = Ret tt w' /\
    registry (tui_globalcontext w') = [2%N; 1%N; 3%N].
Proof.
  destruct (raiseComponent_moves_to_front world_123 2%N [1%N] [3%N])
    as (w' & Hret & Hreg & _).
  - reflexivity.
  - intros Hin. apply list_elem_of_singleton in Hin. discriminate Hin.
  - exists w'. split; assumption.
Defined.

(** A rectangle at (2, 3) of width 10 and height 5: the column 12 of its
    high edge is inside, the next one is not. *)
Lemma inComponent_inclusive_witness :
  let c := {| parent := NULL;
              pos := {| p_x := 2; p_y := 3; p_width := 10; p_height := 5 |};
              children := []; onClick := None; onKeypress := None;
              render := None; resize := None; ckind := Kind1 |} in
  inComponent c 12 8 = true /\ inComponent c 13 8 = false.
Proof.
  intros c.
  destruct (inComponent_inclusive c 12 8) as [Hiff Hedge].
  - cbv; intuition discriminate.
  - cbv; intuition discriminate.
  - cbv; intuition discriminate.
  - split; [apply Hedge; [reflexivity | simpl; lia] | reflexivity].
Defined.

(** ** Tear-down *)

Section Teardown.
Context {App TMT : Type}.
Implicit Types (w : @World App TMT).

Lemma tui_deinit_inactive w : _tui_active w = 0 -> tui_deinit w = Ret tt w.
Proof. intros H. unfold tui_deinit. by rewrite H. Qed.

Lemma repeat_deinit_inactive n w :
  _tui_active w = 0 -> repeat_call n tui_deinit w = Ret tt w.
Proof.
  intros H. induction n as [|n IH]; [done|].
  simpl. unfold bind. by rewrite tui_deinit_inactive.
Qed.

(** One tear-down from an active world. *)
Lemma tui_deinit_active w :
  _tui_active w <> 0 ->
  exists w1,
    tui_deinit w = Ret tt w1 /\
    _tui_active w1 = 0 /\
    os_trace (os w1) = os_trace (os w) ++ deinit_calls w /\
    os_tio (os w1) = _old_tio w /\
    os_sigint (os w1) = _old_sigint w /\
    os_sigterm (os w1) = _old_sigterm w /\
    os_sigwinch (os w1) = _old_sigwinch w.
Proof.
  intros H. unfold tui_deinit. destruct (Z.eqb_spec (_tui_active w) 0); [done|].
  run_actions. simpl.
  unfold os_setlocale.
  destruct (_old_locale w) as [name|] eqn:Hloc; [case_bool_decide|];
    (eexists; split; [reflexivity|]; simpl; repeat split;
     unfold deinit_calls; rewrite Hloc, <- !app_assoc; done).
Qed.

(** Any number of tear-downs from an active world, at least one, ends
    where the first one does. *)
Lemma repeat_deinit_active n w w1 :
  tui_deinit w = Ret tt w1 -> _tui_active w1 = 0 ->
  repeat_call (S n) tui_deinit w = Ret tt w1.
Proof.
  intros Hret Hoff. simpl. unfold bind. rewrite Hret.
  by apply repeat_deinit_inactive.
Qed.

(** C6. [tui_deinit] is idempotent.  From an active world any number
    of calls (at least one) ends in the world one call gives: the
    runtime is inactive, the saved terminal mode and the three saved
    signal handlers have been written back by exactly one [tcsetattr]
    and one [signal] each, and a further call returns that world
    unchanged, so it makes no call at all.  From an inactive world any
    number of calls leaves the world unchanged. *)
Theorem tui_deinit_idempotent w n :
  (_tui_active w = 0 -> repeat_call n tui_deinit w = Ret tt w) /\
  (_tui_active w <> 0 ->
   exists w1,
     tui_deinit w = Ret tt w1 /\
     repeat_call (S n) tui_deinit w = Ret tt w1 /\
     tui_deinit w1 = Ret tt w1 /\
     _tui_active w1 = 0 /\
     os_trace (os w1) = os_trace (os w) ++ deinit_calls w /\
     filter is_restore_call (deinit_calls w)
     = [sys_signal SIGINT (_old_sigint w);
        sys_signal SIGTERM (_old_sigterm w);
        sys_signal SIGWINCH (_old_sigwinch w);
        sys_tcsetattr 1 (_old_tio w)] /\
     os_tio (os w1) = _old_tio w /\
     os_sigint (os w1) = _old_sigint w /\
     os_sigterm (os w1) = _old_sigterm w /\
     os_sigwinch (os w1) = _old_sigwinch w).
Proof.
  split; [apply repeat_deinit_inactive|].
  intros Hact.
  destruct (tui_deinit_active w Hact)
    as (w1 & Hret & Hoff & Htrace & Htio & Hint & Hterm & Hwinch).
  exists w1. repeat split; try assumption.
  - by apply repeat_deinit_active.
  - by apply tui_deinit_inactive.
Qed.

(** Set-up on a system whose locale can be queried and that offers
    [C.UTF-8], with a terminal of supported size: the runtime becomes
    active and holds the terminal mode and the handlers it found. *)
Lemma tui_init_saves (tmt_open : Z -> Z -> gmap N TMT -> ptr * gmap N TMT)
    w0 (l : string) :
  os_locale (os w0) = Some l ->
  "C.UTF-8"%string ∈ os_locales (os w0) ->
  os_ws_row (os w0) <= UINT16_MAX -> os_ws_col (os w0) <= UINT16_MAX ->
  exists w,
    tui_init tmt_open w0 = Ret tt w /\
    _tui_active w = 1 /\
    _old_tio w = os_tio (os w0) /\
    _old_sigint w = os_sigint (os w0) /\
    _old_sigterm w = os_sigterm (os w0) /\
    _old_sigwinch w = os_sigwinch (os w0) /\
    rootComponent (tui_globalcontext w) = NULL /\
    num_components (tui_globalcontext w) = 0.
Proof.
  intros Hloc Havail Hrow Hcol.
  unfold tui_init, updateSize, tui_error. run_actions. simpl.
  rewrite Hloc. simpl.
  rewrite (bool_decide_eq_true_2 _ Havail). simpl.
  destruct (Z.gtb_spec (os_ws_row (os w0)) UINT16_MAX); [lia|].
  destruct (Z.gtb_spec (os_ws_col (os w0)) UINT16_MAX); [lia|].
  simpl. eexists. split; [reflexivity|]. by repeat split.
Qed.

(** Set-up followed by any number of tear-downs gives the terminal
    mode and the handlers of before the set-up back. *)
Lemma tui_init_deinit_restores
    (tmt_open : Z -> Z -> gmap N TMT -> ptr * gmap N TMT) w0 (l : string) n :
  os_locale (os w0) = Some l ->
  "C.UTF-8"%string ∈ os_locales (os w0) ->
  os_ws_row (os w0) <= UINT16_MAX -> os_ws_col (os w0) <= UINT16_MAX ->
  exists w1,
    (tui_init tmt_open ;;; repeat_call (S n) tui_deinit) w0 = Ret tt w1 /\
    _tui_active w1 = 0 /\
    os_tio (os w1) = os_tio (os w0) /\
    os_sigint (os w1) = os_sigint (os w0) /\
    os_sigterm (os w1) = os_sigterm (os w0) /\
    os_sigwinch (os w1) = os_sigwinch (os w0).
Proof.
  intros Hloc Havail Hrow Hcol.
  destruct (tui_init_saves tmt_open w0 l Hloc Havail Hrow Hcol)
    as (w & Hinit & Hact & Htio & Hint & Hterm & Hwinch & _).
  destruct (tui_deinit_active w) as (w1 & Hret & Hoff & _ & H1 & H2 & H3 & H4);
    [lia|].
  pose proof (repeat_deinit_active n w w1 Hret Hoff) as Hrep.
  exists w1. unfold bind at 1. rewrite Hinit, Hrep.
  split; [done|]. split; [done|]. by rewrite H1, H2, H3, H4.
Qed.

End Teardown.

(** Three tear-downs of [world_active] make the calls of one. *)
Lemma tui_deinit_idempotent_witness :
  exists w1 : ExWorld,
    repeat_call 3 tui_deinit world_active = Ret tt w1 /\
    _tui_active w1 = 0 /\
    os_trace (os w1) = deinit_calls world_active.
Proof.
  destruct (tui_deinit_idempotent world_active 2) as [_ Hact].
  destruct Hact as (w1 & _ & Hrep & _ & Hoff & Htrace & _).
  - discriminate.
  - exists w1. repeat split; assumption.
Defined.

(** ** Dispatch *)

Section Dispatch.
Context {App TMT : Type}.
Variable call_onClick : fnptr -> MouseEvent -> @M App TMT Z.
Variable call_onKeypress : fnptr -> KeyEvent -> @M App TMT Z.
Variable call_resize : fnptr -> Position -> @M App TMT unit.
Implicit Types (w : @World App TMT) (e : Event).

Local Abbreviation dispatch_loop := (dispatch_loop call_onClick call_onKeypress).
Local Abbreviation handle_event := (handle_event call_onClick call_onKeypress call_resize).
Local Abbreviation applicable_handler := (applicable_handler call_onClick call_onKeypress).
Local Abbreviation passed_over := (passed_over call_onClick call_onKeypress).

Lemma wrap16_succ (i nc : Z) :
  0 <= i -> i < nc -> is_uint16 nc -> wrap16 (i + 1) = i + 1.
Proof.
  unfold is_uint16, UINT16_MAX, wrap16. intros. rewrite Z.mod_small; lia.
Qed.

(** One turn of the loop over a component that is passed over. *)
Lemma dispatch_loop_pass fuel (i : nat) e w :
  is_input e ->
  is_uint16 (num_components (tui_globalcontext w)) ->
  Z.of_nat i < num_components (tui_globalcontext w) ->
  passed_over w e i ->
  dispatch_loop (S fuel) (Z.of_nat i) e w
  = dispatch_loop fuel (Z.of_nat (S i)) e w.
Proof.
  intros Hin Hnc Hi (p & c & Hp & Hc & Hnone).
  assert (Hwrap : wrap16 (Z.of_nat i + 1) = Z.of_nat (S i)).
  { rewrite (wrap16_succ _ _ (Nat2Z.is_nonneg i) Hi Hnc). lia. }
  simpl. unfold bind at 1. unfold get.
  destruct (Z.ltb_spec (Z.of_nat i) (num_components (tui_globalcontext w)));
    [|lia]. simpl.
  unfold applicable_handler in Hnone.
  destruct Hin as [[Hk [k Hpay]]|[Hk [m Hpay]]]; rewrite Hk, Hpay in Hnone;
    rewrite Hk; unfold bind at 1; unfold component_at;
    rewrite Nat2Z.id, Hp, Hc.
  - destruct (onKeypress c); [done|]. by rewrite Hwrap.
  - destruct (onClick c); [|by rewrite Hwrap].
    unfold bind at 1. unfold read_mouseEvent. rewrite Hpay. unfold ret.
    destruct (inComponent c (mouse_x m) (mouse_y m)); [done|].
    by rewrite Hwrap.
Qed.

(** The loop runs over a stretch of passed-over components without
    invoking anything. *)
Lemma dispatch_loop_skip (k : nat) : forall fuel (i : nat) e w,
  is_input e ->
  is_uint16 (num_components (tui_globalcontext w)) ->
  Z.of_nat (i + k) <= num_components (tui_globalcontext w) ->
  (forall j, (i <= j < i + k)%nat -> passed_over w e j) ->
  dispatch_loop (k + fuel) (Z.of_nat i) e w
  = dispatch_loop fuel (Z.of_nat (i + k)) e w.
Proof.
  induction k as [|k IH]; intros fuel i e w Hin Hnc Hle Hpass.
  - simpl. by rewrite Nat.add_0_r.
  - change (S k + fuel)%nat with (S (k + fuel)).
    rewrite dispatch_loop_pass; [|done|done|lia|apply Hpass; lia].
    rewrite IH; [|done|done|lia|intros j Hj; apply Hpass; lia].
    f_equal. lia.
Qed.

(** The loop ends when the counter reaches [num_components]. *)
Lemma dispatch_loop_end fuel (i : Z) e w :
  num_components (tui_globalcontext w) <= i ->
  dispatch_loop (S fuel) i e w = Ret e w.
Proof.
  intros Hle. simpl. unfold bind, get.
  destruct (Z.ltb_spec i (num_components (tui_globalcontext w))); [lia|done].
Qed.

(** One turn of the loop over a component with an applicable handler. *)
Lemma dispatch_loop_invoke fuel (i : nat) e w p c h :
  is_input e ->
  is_uint16 (num_components (tui_globalcontext w)) ->
  Z.of_nat i < num_components (tui_globalcontext w) ->
  componentList (tui_globalcontext w) !! i = Some p ->
  heap w !! p = Some c ->
  applicable_handler e c = Some h ->
  dispatch_loop (S fuel) (Z.of_nat i) e w
  = (r <- h ;;
     if to_bool r then ret (set_handled e true)
     else dispatch_loop fuel (Z.of_nat (S i)) (set_handled e false)) w.
Proof.
  intros Hin Hnc Hi Hp Hc Hsome.
  assert (Hwrap : wrap16 (Z.of_nat i + 1) = Z.of_nat (S i)).
  { rewrite (wrap16_succ _ _ (Nat2Z.is_nonneg i) Hi Hnc). lia. }
  simpl. unfold bind at 1. unfold get.
  destruct (Z.ltb_spec (Z.of_nat i) (num_components (tui_globalcontext w)));
    [|lia]. simpl.
  unfold applicable_handler in Hsome.
  destruct Hin as [[Hk [k Hpay]]|[Hk [m Hpay]]]; rewrite Hk, Hpay in Hsome;
    rewrite Hk; unfold bind at 1; unfold component_at;
    rewrite Nat2Z.id, Hp, Hc.
  - destruct (onKeypress c); [|done]. injection Hsome as <-.
    unfold bind at 1. unfold read_keyEvent. rewrite Hpay. unfold ret.
    unfold bind. destruct (call_onKeypress _ _ _) as [r w'| |]; [|done..].
    rewrite Hwrap. by destruct (to_bool r).
  - destruct (onClick c); [|done].
    unfold bind at 1. unfold read_mouseEvent. rewrite Hpay. unfold ret.
    destruct (inComponent c (mouse_x m) (mouse_y m)); [|done].
    injection Hsome as <-.
    unfold bind. destruct (call_onClick _ _ _) as [r w'| |]; [|done..].
    rewrite Hwrap. by destruct (to_bool r).
Qed.

Lemma dispatch_fuel_eq : Z.of_nat dispatch_fuel = 65536.
Proof. unfold dispatch_fuel. lia. Qed.

(** C2 (amended). On a key or mouse event the loop of [handle_event]
    considers the registry from the front slot (index 0) toward the
    back.  When the slots before [j] hold components that are passed
    over (no handler of the event's sort or, for a mouse event, the
    pointer outside the rectangle), then: if slot [j] holds a component
    with an applicable handler, that handler is the first one invoked,
    a component further back gets the event only after it declines,
    and the loop stops when it reports the event handled; if [j] is
    the end of the registry, no handler is invoked and the event and
    the state come back unchanged. *)
Theorem handle_event_front_first e w (j : nat) :
  is_input e ->
  is_uint16 (num_components (tui_globalcontext w)) ->
  Z.of_nat j <= num_components (tui_globalcontext w) ->
  (forall k, (k < j)%nat -> passed_over w e k) ->
  (forall p c h,
     Z.of_nat j < num_components (tui_globalcontext w) ->
     componentList (tui_globalcontext w) !! j = Some p ->
     heap w !! p = Some c ->
     applicable_handler e c = Some h ->
     dispatch_loop dispatch_fuel 0 e w
     = (r <- h ;;
        if to_bool r then ret (set_handled e true)
        else dispatch_loop (dispatch_fuel - S j) (Z.of_nat (S j))
                           (set_handled e false)) w)
  /\ (Z.of_nat j = num_components (tui_globalcontext w) ->
      dispatch_loop dispatch_fuel 0 e w = Ret e w).
Proof.
  intros Hin Hnc Hj Hpass.
  pose proof dispatch_fuel_eq as Hfuel.
  assert (Hskip : dispatch_loop dispatch_fuel 0 e w
                  = dispatch_loop (S (dispatch_fuel - S j)) (Z.of_nat j) e w).
  { replace dispatch_fuel with (j + S (dispatch_fuel - S j))%nat at 1
      by (unfold is_uint16, UINT16_MAX in Hnc; lia).
    apply (dispatch_loop_skip j _ 0 e w); [done..|lia|].
    intros k Hk. apply Hpass. lia. }
  rewrite Hskip.
  split.
  - intros p c h Hlt Hp Hc Hh. by apply (dispatch_loop_invoke _ _ _ _ p c).
  - intros Hend. apply dispatch_loop_end. lia.
Qed.

(** *** The guards of [handle_event] *)

Lemma handle_event_inactive w :
  _tui_active w = 0 ->
  handle_event w
  = Exited 1 (with_os (log (sys_write 2 ("Root component not initialized." +:+ LF))
                           (os w)) w).
Proof.
  intros Hoff. unfold handle_event, bind, get, when, tui_error.
  rewrite Hoff. simpl. unfold bind. rewrite (tui_deinit_inactive w Hoff).
  reflexivity.
Qed.

(** With a root component assigned, an active runtime tears down and
    exits. *)
Lemma handle_event_root_assigned w :
  _tui_active w <> 0 ->
  rootComponent (tui_globalcontext w) <> NULL ->
  exists w1,
    tui_deinit w = Ret tt w1 /\
    handle_event w
    = Exited 1 (with_os (log (sys_write 2 ("Tui is not active." +:+ LF))
                             (os w1)) w1).
Proof.
  intros Hact Hroot.
  destruct (tui_deinit_active w Hact) as (w1 & Hret & _).
  exists w1. split; [done|].
  unfold handle_event, bind, get, when, tui_error.
  destruct (Z.eqb_spec (_tui_active w) 0); [done|]. unfold ret.
  destruct (N.eqb_spec (rootComponent (tui_globalcontext w)) NULL); [done|].
  simpl. unfold bind. rewrite Hret. reflexivity.
Qed.

(** With no root component assigned, an active runtime passes both
    guards: what follows is decided by the latches alone. *)
Lemma handle_event_no_root w :
  _tui_active w <> 0 ->
  rootComponent (tui_globalcontext w) = NULL ->
  handle_event w
  = (if _exiting (tui_globalcontext w) then
       (tui_deinit ;;;
        ret (set_handled (set_kind Event_uninitialized END) true)) w
     else if _needs_resize (tui_globalcontext w) then
       handle_resize call_resize Event_uninitialized w
     else dispatch_loop dispatch_fuel 0 Event_uninitialized w).
Proof.
  intros Hact Hroot.
  unfold handle_event, bind, get, when.
  destruct (Z.eqb_spec (_tui_active w) 0); [done|]. unfold ret.
  rewrite Hroot. simpl.
  destruct (_exiting (tui_globalcontext w)); [done|].
  by destruct (_needs_resize (tui_globalcontext w)).
Qed.

(** The resize branch, once entered with a live root that has a resize
    handler: the latch is cleared, the size queried, the handler
    called with the full viewport, and a handled [RESIZE] event
    returned that carries the size in the global context. *)
Lemma handle_resize_returns_resize e w root f w2 :
  os_ws_row (os w) <= UINT16_MAX -> os_ws_col (os w) <= UINT16_MAX ->
  let w1 := with_context
              (set_window (wrap16 (os_ws_col (os w))) (wrap16 (os_ws_row (os w)))
                          (set_needs_resize false (tui_globalcontext w)))
              (with_os (log (sys_ioctl_winsz 1) (os w)) w) in
  heap w !! rootComponent (tui_globalcontext w) = Some root ->
  resize root = Some f ->
  call_resize f {| p_x := 0; p_y := 0;
                   p_width := wrap16 (os_ws_col (os w));
                   p_height := wrap16 (os_ws_row (os w)) |} w1 = Ret tt w2 ->
  handle_resize call_resize e w
  = Ret {| handled := Some true; kind := Some RESIZE;
           payload := resizeEvent
                        {| new_width := window_width (tui_globalcontext w2);
                           new_height := window_height (tui_globalcontext w2) |} |}
        w2.
Proof.
  intros Hrow Hcol w1 Hroot Hf Hcall.
  unfold handle_resize, updateSize. run_actions. simpl.
  destruct (Z.gtb_spec (os_ws_row (os w)) UINT16_MAX); [lia|].
  destruct (Z.gtb_spec (os_ws_col (os w)) UINT16_MAX); [lia|].
  simpl. rewrite Hroot, Hf. subst w1.
  unfold with_context, with_os, set_window, set_needs_resize, log in *.
  simpl in *. rewrite Hcall. reflexivity.
Qed.

(** The loop run on the event [handle_event] declares: nothing has
    been stored into it, so the first turn reads an indeterminate
    [kind]; with an empty registry the event is returned as it is. *)
Lemma dispatch_loop_uninitialized fuel w :
  dispatch_loop (S fuel) 0 Event_uninitialized w
  = if 0 <? num_components (tui_globalcontext w) then Fault
    else Ret Event_uninitialized w.
Proof.
  simpl. unfold bind, get.
  by destruct (0 <? num_components (tui_globalcontext w)).
Qed.

(** The raw-input path of [handle_event]: it is entered with the event
    as declared. *)
Lemma handle_event_raw_input w :
  _tui_active w <> 0 ->
  rootComponent (tui_globalcontext w) = NULL ->
  _exiting (tui_globalcontext w) = false ->
  _needs_resize (tui_globalcontext w) = false ->
  handle_event w
  = if 0 <? num_components (tui_globalcontext w) then Fault
    else Ret Event_uninitialized w.
Proof.
  intros Hact Hroot Hexit Hresize.
  rewrite (handle_event_no_root w Hact Hroot), Hexit, Hresize.
  pose proof dispatch_fuel_eq as Hfuel.
  replace dispatch_fuel with (S (dispatch_fuel - 1)) by lia.
  apply dispatch_loop_uninitialized.
Qed.

End Dispatch.

(** ** The render-diff pass *)

Section Render.
Context {App TMT : Type}.
Variable tmt_screen : TMT -> TMTSCREEN.
Variable tmt_write : TMT -> list Z -> TMT.
Variable wctomb : Z -> option (list Z).
Implicit Types (w : @World App TMT) (scr tmt : ptr).

Local Abbreviation encode_char := (encode_char wctomb).
Local Abbreviation write_cell := (write_cell tmt_screen tmt_write wctomb).
Local Abbreviation write_cells := (write_cells tmt_screen tmt_write wctomb).
Local Abbreviation write_line := (write_line tmt_screen tmt_write wctomb).
Local Abbreviation write_lines := (write_lines tmt_screen tmt_write wctomb).
Local Abbreviation writescreen := (writescreen tmt_screen tmt_write wctomb).
Local Abbreviation pass_inv := (pass_inv tmt_screen).
Local Abbreviation encoded := (encoded wctomb).

Lemma encode_char_replacement c :
  wctomb c = None -> encode_char c = Some replacement_char.
Proof. intros H. unfold encode_char. rewrite H. reflexivity. Qed.

Lemma encode_char_total c : exists b, encode_char c = Some b.
Proof.
  unfold encode_char. destruct (wctomb c) as [b|]; [by exists b|].
  by exists replacement_char.
Qed.

(** C9. When the conversion of a cell's character fails, the turn of
    the inner loop for that cell makes one [tmt_write] call whose
    buffer is exactly the three bytes EF BF BD, the UTF-8 form of
    U+FFFD; nothing else is written. *)
Theorem write_cell_replacement scr tmt lnum cnum w vt line ch target :
  tmts w !! scr = Some vt ->
  lines (tmt_screen vt) !! lnum = Some line ->
  chars line !! cnum = Some ch ->
  tmts w !! tmt = Some target ->
  wctomb (ch_c ch) = None ->
  write_cell scr tmt lnum cnum w
  = Ret replacement_char
        (with_tmts (<[tmt := tmt_write target replacement_char]> (tmts w)) w)
  /\ replacement_char = utf8_encode 65533.
Proof.
  intros Hvt Hline Hch Htgt Hfail. split; [|reflexivity].
  unfold write_cell. rewrite Hvt, Hline, Hch.
  rewrite (encode_char_replacement _ Hfail). by rewrite Htgt.
Qed.

(** A clean row is skipped: no output, no change. *)
Lemma write_line_clean scr tmt ncol lnum w vt :
  tmts w !! scr = Some vt ->
  line_clean (tmt_screen vt) lnum ->
  write_line scr tmt ncol lnum w = Ret [] w.
Proof.
  intros Hvt (line & Hline & Hclean).
  unfold write_line. by rewrite Hvt, Hline, Hclean.
Qed.

Lemma screen_shape_lookup (s : TMTSCREEN) i k :
  screen_shape s !! i = Some k <->
  exists l, lines s !! i = Some l /\ length (chars l) = k.
Proof.
  unfold screen_shape. rewrite list_lookup_fmap.
  destruct (lines s !! i) as [l|]; simpl; split.
  - intros [= <-]. by exists l.
  - by intros (l' & [= <-] & <-).
  - done.
  - by intros (? & ? & _).
Qed.

Section Pass.
Variables (scr tmt : ptr) (w0 : @World App TMT).
Hypothesis Hshape : write_keeps_shape tmt_screen tmt_write.
Hypothesis Hdirty : write_keeps_dirty tmt_screen tmt_write.

Lemma pass_inv_start vt0 :
  tmts w0 !! scr = Some vt0 -> is_Some (tmts w0 !! tmt) ->
  pass_inv scr tmt w0 w0.
Proof.
  intros Hvt Htgt. split; [by destruct w0|]. split; [done|].
  split; [done|]. by exists vt0, vt0.
Qed.

Lemma write_cell_inv w vt0 lnum cnum k :
  pass_inv scr tmt w0 w ->
  tmts w0 !! scr = Some vt0 ->
  screen_shape (tmt_screen vt0) !! lnum = Some k -> (cnum < k)%nat ->
  exists b w', write_cell scr tmt lnum cnum w = Ret b w' /\
               pass_inv scr tmt w0 w'.
Proof.
  intros (Hw & Hother & [target Htgt] & vt0' & vt & Hvt0 & Hvt & Hsh & Hd)
         Hvt0' Hk Hc.
  rewrite Hvt0 in Hvt0'. injection Hvt0' as ->.
  rewrite <- Hsh in Hk. apply screen_shape_lookup in Hk as (line & Hline & Hlen).
  destruct (lookup_lt_is_Some_2 (chars line) cnum) as [ch Hch]; [lia|].
  destruct (encode_char_total (ch_c ch)) as [b Hb].
  exists b. eexists. unfold write_cell.
  rewrite Hvt, Hline, Hch, Hb, Htgt. split; [reflexivity|].
  split; [simpl; rewrite Hw; reflexivity|].
  split; [intros p Hp; simpl; rewrite lookup_insert_ne by done; by apply Hother|].
  split; [simpl; rewrite lookup_insert_eq; by eexists|].
  exists vt0. simpl.
  destruct (decide (tmt = scr)) as [->|Hne].
  - rewrite Hvt in Htgt. injection Htgt as <-.
    exists (tmt_write vt b). rewrite lookup_insert_eq.
    split; [done|]. split; [done|]. split; [by rewrite Hshape|].
    intros i Hi. by apply Hdirty, Hd.
  - exists vt. rewrite lookup_insert_ne by done. by repeat split.
Qed.

Lemma write_cells_inv n : forall w vt0 lnum cnum k,
  pass_inv scr tmt w0 w ->
  tmts w0 !! scr = Some vt0 ->
  screen_shape (tmt_screen vt0) !! lnum = Some k -> (cnum + n <= k)%nat ->
  exists bs w', write_cells scr tmt lnum cnum n w = Ret bs w' /\
                pass_inv scr tmt w0 w'.
Proof.
  induction n as [|n IH]; intros w vt0 lnum cnum k Hinv Hvt0 Hk Hle.
  - by exists [], w.
  - destruct (write_cell_inv w vt0 lnum cnum k) as (b & w1 & H1 & Hinv1);
      [done..|lia|].
    destruct (IH w1 vt0 lnum (S cnum) k) as (bs & w2 & H2 & Hinv2);
      [done..|lia|].
    exists (b :: bs), w2. simpl. unfold bind. by rewrite H1, H2.
Qed.

Lemma write_line_inv w vt0 ncol lnum k :
  pass_inv scr tmt w0 w ->
  tmts w0 !! scr = Some vt0 ->
  screen_shape (tmt_screen vt0) !! lnum = Some k -> (ncol <= k)%nat ->
  exists bs w', write_line scr tmt ncol lnum w = Ret bs w' /\
                pass_inv scr tmt w0 w'.
Proof.
  intros Hinv Hvt0 Hk Hle.
  pose proof Hinv as (_ & _ & _ & vt0' & vt & Hvt0' & Hvt & Hsh & _).
  rewrite Hvt0 in Hvt0'. injection Hvt0' as <-.
  pose proof Hk as Hk'. rewrite <- Hsh in Hk'.
  apply screen_shape_lookup in Hk' as (line & Hline & _).
  unfold write_line. rewrite Hvt, Hline.
  destruct (dirty line); simpl.
  - by apply (write_cells_inv ncol w vt0 lnum 0 k).
  - by exists [], w.
Qed.

Lemma write_lines_inv n : forall w vt0 ncol lnum,
  pass_inv scr tmt w0 w ->
  tmts w0 !! scr = Some vt0 ->
  (lnum + n <= length (screen_shape (tmt_screen vt0)))%nat ->
  Forall (fun k => ncol <= k)%nat (screen_shape (tmt_screen vt0)) ->
  exists bs w', write_lines scr tmt ncol lnum n w = Ret bs w' /\
                pass_inv scr tmt w0 w'.
Proof.
  induction n as [|n IH]; intros w vt0 ncol lnum Hinv Hvt0 Hle Hall.
  - by exists [], w.
  - destruct (lookup_lt_is_Some_2 (screen_shape (tmt_screen vt0)) lnum)
      as [k Hk]; [lia|].
    assert (ncol <= k)%nat
      by (eapply (proj1 (Forall_lookup _ _) Hall); eassumption).
    destruct (write_line_inv w vt0 ncol lnum k) as (bs & w1 & H1 & Hinv1);
      [done..|].
    destruct (IH w1 vt0 ncol (S lnum)) as (rest & w2 & H2 & Hinv2);
      [done..|lia|done|].
    exists (bs ++ rest), w2. simpl. unfold bind. by rewrite H1, H2.
Qed.

End Pass.

(** Every buffer the pass hands to [tmt_write] is the conversion of a
    character or the replacement character. *)
Lemma encode_char_encoded c b : encode_char c = Some b -> encoded b.
Proof.
  unfold encode_char. destruct (wctomb c) as [b'|] eqn:Hc.
  - intros [= <-]. right. by exists c.
  - intros [= <-]. by left.
Qed.

Lemma write_cell_output scr tmt lnum cnum w b w' :
  write_cell scr tmt lnum cnum w = Ret b w' -> encoded b.
Proof.
  unfold write_cell.
  destruct (tmts w !! scr) as [vt|]; [|done].
  destruct (lines (tmt_screen vt) !! lnum) as [line|]; [|done].
  destruct (chars line !! cnum) as [ch|]; [|done].
  destruct (encode_char (ch_c ch)) as [cbuffer|] eqn:Henc; [|done].
  destruct (tmts w !! tmt) as [target|]; [|done].
  intros [= <- _]. by eapply encode_char_encoded.
Qed.

Lemma write_cells_output n : forall scr tmt lnum cnum w bs w',
  write_cells scr tmt lnum cnum n w = Ret bs w' -> Forall encoded bs.
Proof.
  induction n as [|n IH]; intros scr tmt lnum cnum w bs w'; simpl.
  - by intros [= <- _].
  - unfold bind.
    destruct (write_cell _ _ _ _ w) as [b w1| |] eqn:H1; [|done..].
    destruct (write_cells _ _ _ _ n w1) as [bs' w2| |] eqn:H2; [|done..].
    intros [= <- _]. constructor; [by eapply write_cell_output|by eapply IH].
Qed.

Lemma write_lines_output n : forall scr tmt ncol lnum w out w',
  write_lines scr tmt ncol lnum n w = Ret out w' -> Forall encoded out.
Proof.
  induction n as [|n IH]; intros scr tmt ncol lnum w out w'; simpl.
  - by intros [= <- _].
  - unfold bind.
    destruct (write_line _ _ _ _ w) as [bs w1| |] eqn:H1; [|done..].
    destruct (write_lines _ _ _ _ n w1) as [rest w2| |] eqn:H2; [|done..].
    intros [= <- _]. apply Forall_app. split; [|by eapply IH].
    unfold write_line in H1.
    destruct (tmts w !! scr) as [vt|]; [|done].
    destruct (lines (tmt_screen vt) !! lnum) as [line|]; [|done].
    destruct (dirty line); simpl in H1.
    + by eapply write_cells_output.
    + by injection H1 as <- _.
Qed.

Lemma writescreen_output tmt w out w' :
  writescreen tmt w = Ret out w' -> Forall encoded out.
Proof.
  unfold writescreen.
  destruct (tmts w !! screen (tui_globalcontext w)) as [vt|]; [|done].
  apply write_lines_output.
Qed.

(** A pass over rows that are all clean writes nothing and changes
    nothing. *)
Lemma write_lines_all_clean n : forall scr tmt ncol lnum w vt,
  tmts w !! scr = Some vt ->
  (forall i, (lnum <= i < lnum + n)%nat -> line_clean (tmt_screen vt) i) ->
  write_lines scr tmt ncol lnum n w = Ret [] w.
Proof.
  induction n as [|n IH]; intros scr tmt ncol lnum w vt Hvt Hclean; [done|].
  simpl. unfold bind.
  rewrite (write_line_clean scr tmt ncol lnum w vt Hvt) by (apply Hclean; lia).
  rewrite (IH scr tmt ncol (S lnum) w vt Hvt)
    by (intros i Hi; apply Hclean; lia).
  reflexivity.
Qed.

(** C7 (amended). One pass of [writescreen] over a well-formed screen
    returns.  A row whose dirty flag is clear when the pass reaches it
    is skipped: the turn gives no output and changes nothing; so a
    pass over a screen with no dirty row gives no output and leaves
    the state as it was.  The pass itself never writes a dirty flag:
    it changes nothing but the terminal object it writes to, through
    [tmt_write], and with a [tmt_write] that keeps the dimensions and
    clears no flag, every row that was dirty before the pass is still
    dirty after it. *)
Theorem writescreen_skips_clean_keeps_dirty tmt w vt0 :
  write_keeps_shape tmt_screen tmt_write ->
  write_keeps_dirty tmt_screen tmt_write ->
  tmts w !! screen (tui_globalcontext w) = Some vt0 ->
  is_Some (tmts w !! tmt) ->
  well_formed_screen (tmt_screen vt0) ->
  (forall w1 vt lnum,
     tmts w1 !! screen (tui_globalcontext w) = Some vt ->
     line_clean (tmt_screen vt) lnum ->
     write_line (screen (tui_globalcontext w)) tmt
                (ncol (tmt_screen vt0)) lnum w1 = Ret [] w1)
  /\ (exists out w',
       writescreen tmt w = Ret out w' /\
       w' = with_tmts (tmts w') w /\
       (forall p, p <> tmt -> tmts w' !! p = tmts w !! p) /\
       (exists vt',
          tmts w' !! screen (tui_globalcontext w) = Some vt' /\
          forall i, line_dirty (tmt_screen vt0) i ->
                    line_dirty (tmt_screen vt') i) /\
       ((forall i, (i < nline (tmt_screen vt0))%nat ->
                   line_clean (tmt_screen vt0) i) ->
        out = [] /\ w' = w)).
Proof.
  intros Hshape Hdirty Hvt0 Htgt [Hnline Hncol].
  split.
  { intros w1 vt lnum Hvt Hclean. by apply (write_line_clean _ _ _ _ _ vt). }
  destruct (write_lines_inv (screen (tui_globalcontext w)) tmt w Hshape Hdirty
              (nline (tmt_screen vt0)) w vt0 (ncol (tmt_screen vt0)) 0)
    as (out & w' & Hret & Hw & Hother & _ & vt0' & vt' & Hvt0' & Hvt' & _ & Hd).
  - by apply (pass_inv_start _ _ _ vt0).
  - done.
  - unfold screen_shape. rewrite length_fmap. simpl. lia.
  - done.
  - rewrite Hvt0 in Hvt0'. injection Hvt0' as <-.
    assert (Hws : writescreen tmt w = Ret out w').
    { unfold writescreen. by rewrite Hvt0. }
    exists out, w'. split; [done|]. split; [done|]. split; [done|].
    split; [by exists vt'|].
    intros Hclean.
    rewrite (write_lines_all_clean _ _ _ _ _ w vt0 Hvt0) in Hret
      by (intros i Hi; apply Hclean; lia).
    by injection Hret as <- <-.
Qed.

End Render.

(** ** Closed instances *)

(** C2, on overlapping components that both contain (7, 7) and both
    have handlers.  In [world_overlap] the click and the key go to the
    handlers of the component in the front slot (11 and 13), which
    report them handled; the handlers of the component in the back slot
    (21 and 23) are never invoked.  In [world_decline] both click
    handlers decline and are invoked front slot first, back slot
    second. *)
Lemma handle_event_not_back_first :
  registry (tui_globalcontext world_overlap) = [1%N; 2%N] /\
  heap world_overlap !! 1%N = Some (overlap_front (Some 11%N) (Some 13%N)) /\
  heap world_overlap !! 2%N = Some (overlap_back (Some 21%N) (Some 23%N)) /\
  inComponent (overlap_front (Some 11%N) (Some 13%N)) 7 7 = true /\
  inComponent (overlap_back (Some 21%N) (Some 23%N)) 7 7 = true /\
  (exists w' : ExWorld,
     dispatch_loop ex_onClick ex_onKeypress dispatch_fuel 0 (click_at 7 7)
                   world_overlap
     = Ret (set_handled (click_at 7 7) true) w' /\
     app w' = [11%N] /\ 21%N ∉ app w') /\
  (exists w' : ExWorld,
     dispatch_loop ex_onClick ex_onKeypress dispatch_fuel 0 (key_pressed 97)
                   world_overlap
     = Ret (set_handled (key_pressed 97) true) w' /\
     app w' = [13%N] /\ 23%N ∉ app w') /\
  (exists w' : ExWorld,
     dispatch_loop ex_onClick ex_onKeypress dispatch_fuel 0 (click_at 7 7)
                   world_decline
     = Ret (set_handled (click_at 7 7) false) w' /\
     app w' = [12%N; 22%N]).
Proof.
  do 5 (split; [reflexivity|]).
  split; [|split];
    try (eexists; split; [vm_compute; reflexivity|];
         split; [reflexivity|]; simpl;
         intros Hin; apply list_elem_of_singleton in Hin; discriminate Hin).
  eexists. split; [vm_compute; reflexivity|reflexivity].
Qed.

(** The click at (7, 7) on [world_overlap] goes to the front component. *)
Lemma handle_event_front_first_witness :
  exists w' : ExWorld,
    dispatch_loop ex_onClick ex_onKeypress dispatch_fuel 0 (click_at 7 7)
                  world_overlap
    = Ret (set_handled (click_at 7 7) true) w' /\
    app w' = [11%N].
Proof.
  destruct (handle_event_front_first ex_onClick ex_onKeypress
              (click_at 7 7) world_overlap 0) as [Hfirst _].
  - right. split; [reflexivity|]. eexists. reflexivity.
  - split; simpl; unfold UINT16_MAX; lia.
  - simpl. lia.
  - intros k Hk. lia.
  - rewrite (Hfirst 1%N (overlap_front (Some 11%N) (Some 13%N))
               (ex_onClick 11%N {| mouse_x := 7; mouse_y := 7;
                                   mouse_action := MOUSE_BUTTON_1 |}));
      [|simpl; lia|reflexivity|reflexivity|reflexivity].
    eexists. split; reflexivity.
Defined.

(** C3, on two active worlds.  With root component 1 assigned,
    [handle_event] tears the runtime down, reports [Tui is not active.]
    on the error stream and exits with status 1; with no root component
    assigned it reports nothing and returns. *)
Theorem handle_event_root_guard_inverted :
  (_tui_active world_root_assigned = 1 /\
   rootComponent (tui_globalcontext world_root_assigned) = 1%N /\
   exists w' : ExWorld,
     handle_event ex_onClick ex_onKeypress ex_resize world_root_assigned
     = Exited 1 w' /\
     _tui_active w' = 0 /\
     last (os_trace (os w')) = Some (sys_write 2 ("Tui is not active." +:+ LF))) /\
  (_tui_active world_active = 1 /\
   rootComponent (tui_globalcontext world_active) = NULL /\
   handle_event ex_onClick ex_onKeypress ex_resize world_active
   = Ret Event_uninitialized world_active).
Proof.
  split.
  - split; [reflexivity|]. split; [reflexivity|].
    eexists. split; [vm_compute; reflexivity|]. split; reflexivity.
  - split; [reflexivity|]. split; [reflexivity|]. vm_compute. reflexivity.
Qed.

(** C4, on an active world with root component 1 assigned, the exiting
    latch clear and the resize latch set: [handle_event] exits with
    status 1; no [Resize] event is returned, the latch is still set, the
    terminal size was not queried and the root's resize handler (31) was
    not invoked.  On the same world without a root the resize branch is
    reached and calls through the null root. *)
Theorem handle_event_resize_with_root_exits :
  (_tui_active world_root_assigned = 1 /\
   rootComponent (tui_globalcontext world_root_assigned) = 1%N /\
   _exiting (tui_globalcontext world_root_assigned) = false /\
   _needs_resize (tui_globalcontext world_root_assigned) = true /\
   exists w' : ExWorld,
     handle_event ex_onClick ex_onKeypress ex_resize world_root_assigned
     = Exited 1 w' /\
     _needs_resize (tui_globalcontext w') = true /\
     (sys_ioctl_winsz 1 ∉ os_trace (os w')) /\
     app w' = []) /\
  handle_event ex_onClick ex_onKeypress ex_resize world_no_root_resize = Fault.
Proof.
  split; [|vm_compute; reflexivity].
  do 4 (split; [reflexivity|]).
  eexists. split; [vm_compute; reflexivity|]. split; [reflexivity|].
  split; [|reflexivity].
  simpl. rewrite !not_elem_of_cons. repeat split; try discriminate.
  apply not_elem_of_nil.
Qed.

(** C8, on a registry whose only component has no handler.  The loop
    run on a key event returns the event and the state untouched, so
    the [handled] flag is what it was on entry; [handle_event] never
    assigns that flag on this path, and the flag of the event it returns
    from an empty registry is indeterminate, not false. *)
Theorem key_without_handlers_handled_unassigned :
  dispatch_loop ex_onClick ex_onKeypress dispatch_fuel 0 (key_pressed 97)
                world_no_handlers
  = Ret (key_pressed 97) world_no_handlers /\
  handled (key_pressed 97) = None /\
  (exists e (w' : ExWorld),
     handle_event ex_onClick ex_onKeypress ex_resize world_active = Ret e w' /\
     handled e = None /\ handled e <> Some false /\ w' = world_active).
Proof.
  split; [vm_compute; reflexivity|]. split; [reflexivity|].
  eexists. eexists. split; [vm_compute; reflexivity|].
  split; [reflexivity|]. split; [discriminate|reflexivity].
Qed.

(** C10, on active worlds with no root and both latches clear.  With a
    component registered the first turn of the loop reads the [kind] of
    an event nothing was stored into, which is where [handle_event]
    leaves defined behaviour (the same loop returns once [kind] holds a
    value); with an empty registry the event is returned with [kind] and
    [handled] both indeterminate. *)
Theorem handle_event_reads_unassigned_event :
  handle_event ex_onClick ex_onKeypress ex_resize world_no_handlers = Fault /\
  dispatch_loop ex_onClick ex_onKeypress dispatch_fuel 0 Event_uninitialized
                world_no_handlers = Fault /\
  dispatch_loop ex_onClick ex_onKeypress dispatch_fuel 0
                (set_kind Event_uninitialized KEY) world_no_handlers
  = Ret (set_kind Event_uninitialized KEY) world_no_handlers /\
  (exists e (w' : ExWorld),
     handle_event ex_onClick ex_onKeypress ex_resize world_active = Ret e w' /\
     kind e = None /\ handled e = None).
Proof.
  do 3 (split; [vm_compute; reflexivity|]).
  eexists. eexists. split; [vm_compute; reflexivity|]. split; reflexivity.
Qed.

(** C7, on [world_screen]: row 0 is dirty, the pass visits it and writes
    its two cells, and the row is dirty after the pass, not clean. *)
Lemma writescreen_leaves_dirty :
  line_dirty example_screen 0 /\
  exists (w' : ExWorld) vt',
    writescreen vt_screen vt_write ex_wctomb 100%N world_screen
    = Ret [[104]; [239; 191; 189]] w' /\
    tmts w' !! 100%N = Some vt' /\
    line_dirty (vt_screen vt') 0 /\
    ~ line_clean (vt_screen vt') 0.
Proof.
  split; [eexists; split; reflexivity|].
  eexists. eexists. split; [vm_compute; reflexivity|].
  split; [reflexivity|]. split; [eexists; split; reflexivity|].
  intros (l & Hl & Hclean). injection Hl as <-. discriminate Hclean.
Qed.

Lemma vt_write_keeps_shape : write_keeps_shape vt_screen vt_write.
Proof. intros vt bytes. reflexivity. Qed.

Lemma vt_write_keeps_dirty : write_keeps_dirty vt_screen vt_write.
Proof. intros vt bytes i H. exact H. Qed.

(** The pass over [world_screen] returns and row 0 stays dirty. *)
Lemma writescreen_skips_clean_keeps_dirty_witness :
  exists out (w' : ExWorld) vt',
    writescreen vt_screen vt_write ex_wctomb 100%N world_screen = Ret out w' /\
    tmts w' !! 100%N = Some vt' /\
    line_dirty (vt_screen vt') 0.
Proof.
  destruct (writescreen_skips_clean_keeps_dirty vt_screen vt_write ex_wctomb
              100%N world_screen {| vt_screen := example_screen; vt_fed := [] |})
    as (_ & out & w' & Hret & _ & _ & (vt' & Hvt' & Hd) & _).
  - exact vt_write_keeps_shape.
  - exact vt_write_keeps_dirty.
  - reflexivity.
  - eexists. reflexivity.
  - split; [simpl; lia|]. repeat constructor.
  - exists out, w', vt'. split; [exact Hret|]. split; [exact Hvt'|].
    apply Hd. eexists. split; reflexivity.
Defined.

(** The second cell of row 0 of [world_screen] holds a lone surrogate. *)
Lemma write_cell_replacement_witness :
  exists w' : ExWorld,
    write_cell vt_screen vt_write ex_wctomb 100%N 100%N 0 1 world_screen
    = Ret [239; 191; 189] w'.
Proof.
  destruct (write_cell_replacement vt_screen vt_write ex_wctomb 100%N 100%N 0 1
              world_screen {| vt_screen := example_screen; vt_fed := [] |}
              {| dirty := true;
                 chars := [ {| ch_c := 104; ch_a := example_attrs |};
                            {| ch_c := 55357; ch_a := example_attrs |} ] |}
              {| ch_c := 55357; ch_a := example_attrs |}
              {| vt_screen := example_screen; vt_fed := [] |})
    as [Hret _]; try reflexivity.
  eexists. exact Hret.
Defined.


(** * Further properties of the header *)

(** ** The registry, beyond registered components *)

Section RegistryMore.
Context {App TMT : Type}.
Implicit Types (w : @World App TMT) (c tmp : ptr) (l : list ptr).

(** Without [c] among the slots it runs over, the loop shifts every
    member one slot back and drops the last one. *)
Lemma raise_loop_absent l : forall i c tmp pre rest,
  length pre = i -> c ∉ l ->
  raise_loop (length l) i c tmp (pre ++ l ++ rest)
  = Some (pre ++ take (length l) (tmp :: l) ++ rest).
Proof.
  induction l as [|a l IH]; intros i c tmp pre rest Hlen Hnotin; [done|].
  apply not_elem_of_cons in Hnotin as [Hne Hnotin]. simpl.
  rewrite list_lookup_middle by done.
  destruct (N.eqb_spec a c) as [->|_]; [done|].
  rewrite insert_app_r_alt by lia.
  replace (i - length pre)%nat with 0%nat by lia. simpl.
  replace (pre ++ tmp :: l ++ rest) with ((pre ++ [tmp]) ++ l ++ rest)
    by (by rewrite <- app_assoc).
  rewrite (IH (S i) c a (pre ++ [tmp]) rest);
    [by rewrite <- app_assoc | rewrite length_app; simpl; lia | assumption].
Qed.

(** The loop never touches the slots before its start index. *)
Lemma raise_loop_prefix n : forall i c tmp l l' (k : nat),
  raise_loop n i c tmp l = Some l' -> (k < i)%nat -> l' !! k = l !! k.
Proof.
  induction n as [|n IH]; intros i c tmp l l' k; simpl.
  - by intros [= <-] _.
  - destruct (l !! i) as [despot|]; [|done].
    destruct (despot =? c)%N.
    + intros [= <-] Hk. apply list_lookup_insert_ne. lia.
    + intros Hloop Hk. rewrite (IH _ _ _ _ _ k Hloop) by lia.
      apply list_lookup_insert_ne. lia.
Qed.

(** The call as an equation, for a registered component. *)
Lemma raiseComponent_registered w c l1 l2 :
  registry (tui_globalcontext w) = l1 ++ c :: l2 -> c ∉ l1 ->
  let w' := with_context
              (set_componentList
                 ((c :: l1 ++ l2)
                  ++ drop (Z.to_nat (num_components (tui_globalcontext w)))
                          (componentList (tui_globalcontext w)))
                 (tui_globalcontext w)) w in
  raiseComponent c w = Ret tt w' /\
  registry (tui_globalcontext w') = c :: l1 ++ l2.
Proof.
  intros Hreg Hnotin w'.
  pose proof (registry_split w _ Hreg) as Hcl.
  set (n := Z.to_nat (num_components (tui_globalcontext w))) in *.
  set (rest := drop n (componentList (tui_globalcontext w))) in *.
  assert (Hn : (length l1 + 1 + length l2 <= n)%nat).
  { pose proof (f_equal length Hreg) as Hl. unfold registry in Hl. fold n in Hl.
    rewrite length_take, length_app in Hl. simpl in Hl. lia. }
  split.
  - unfold raiseComponent. rewrite Hcl. destruct l1 as [|a l1].
    + assert (w' = w) as ->.
      { subst w'. simpl in *. rewrite <- Hcl. by destruct w as [[]]. }
      simpl. rewrite N.eqb_refl. by destruct (_ <=? 1).
    + simpl in Hn.
      destruct (Z.leb_spec (num_components (tui_globalcontext w)) 1); [lia|].
      apply not_elem_of_cons in Hnotin as [Hne Hnotin]. simpl.
      destruct (N.eqb_spec a c) as [->|_]; [done|]. fold n.
      replace (c :: (l1 ++ c :: l2) ++ rest)
        with ([c] ++ l1 ++ c :: (l2 ++ rest))
        by (simpl; by rewrite <- app_assoc).
      rewrite (raise_loop_found l1 (n - 1) 1 c a [c] (l2 ++ rest));
        [|done|done|lia].
      subst w'. simpl. by rewrite <- !app_assoc.
  - subst w'. unfold registry. simpl. fold n. unfold rest.
    apply (take_registry_app (l1 ++ c :: l2) (c :: l1 ++ l2)); [exact Hreg|].
    simpl. rewrite !length_app. simpl. lia.
Qed.

(** X1. Raising a component that is not registered, in a registry of at
    least two members that fits the array: the call returns, the
    component takes the front slot, every member moves one slot toward
    the back and the member of the back slot is dropped from the
    registry; the size and the slots past the registry are unchanged. *)
Theorem raiseComponent_unregistered w c :
  2 <= num_components (tui_globalcontext w) ->
  (Z.to_nat (num_components (tui_globalcontext w))
   <= length (componentList (tui_globalcontext w)))%nat ->
  c ∉ registry (tui_globalcontext w) ->
  exists w',
    raiseComponent c w = Ret tt w' /\
    registry (tui_globalcontext w')
    = c :: take (Z.to_nat (num_components (tui_globalcontext w)) - 1)
                (registry (tui_globalcontext w)) /\
    num_components (tui_globalcontext w') = num_components (tui_globalcontext w) /\
    drop (Z.to_nat (num_components (tui_globalcontext w)))
         (componentList (tui_globalcontext w'))
    = drop (Z.to_nat (num_components (tui_globalcontext w)))
           (componentList (tui_globalcontext w)) /\
    (forall z, last (registry (tui_globalcontext w)) = Some z ->
               NoDup (registry (tui_globalcontext w)) ->
               z ∉ registry (tui_globalcontext w')).
Proof.
  intros Hnc Hfit Hnotin.
  pose proof (registry_split w _ eq_refl) as Hcl.
  set (n := Z.to_nat (num_components (tui_globalcontext w))) in *.
  set (rest := drop n (componentList (tui_globalcontext w))) in *.
  assert (Hlen : length (registry (tui_globalcontext w)) = n).
  { unfold registry. fold n. rewrite length_take. lia. }
  destruct (registry (tui_globalcontext w)) as [|a l] eqn:Hreg;
    [simpl in Hlen; lia|].
  apply not_elem_of_cons in Hnotin as [Hne Hnotin]. simpl in Hlen.
  assert (Hcall : raiseComponent c w
    = Ret tt (with_context
                (set_componentList ((c :: take (length l) (a :: l)) ++ rest)
                                   (tui_globalcontext w)) w)).
  { unfold raiseComponent. rewrite Hcl.
    destruct (Z.leb_spec (num_components (tui_globalcontext w)) 1); [lia|].
    simpl. destruct (N.eqb_spec a c) as [->|_]; [done|]. fold n.
    replace (n - 1)%nat with (length l) by lia.
    change (c :: l ++ rest) with ([c] ++ l ++ rest).
    rewrite (raise_loop_absent l 1 c a [c] rest); [|done|done].
    reflexivity. }
  assert (Hreg' : take n ((c :: take (length l) (a :: l)) ++ rest)
                  = c :: take (length l) (a :: l)).
  { apply take_app_length'. simpl. rewrite length_take. simpl. lia. }
  set (w' := with_context
               (set_componentList ((c :: take (length l) (a :: l)) ++ rest)
                                  (tui_globalcontext w)) w) in *.
  assert (Hregw' : registry (tui_globalcontext w') = c :: take (length l) (a :: l))
    by exact Hreg'.
  exists w'. split; [exact Hcall|].
  split; [rewrite Hregw'; by replace (n - 1)%nat with (length l) by lia|].
  split; [done|].
  split.
  { change (componentList (tui_globalcontext w'))
      with ((c :: take (length l) (a :: l)) ++ rest).
    rewrite drop_app_length'; [done|]. simpl. rewrite length_take. simpl. lia. }
  intros z Hlast Hnodup. rewrite Hregw'.
  assert (Hsplit : a :: l = take (length l) (a :: l) ++ [z]).
  { rewrite last_Some in Hlast. destruct Hlast as [l0 Hl0]. rewrite Hl0.
    assert (length l = length l0) as ->.
    { apply (f_equal length) in Hl0. rewrite length_app in Hl0. simpl in Hl0. lia. }
    by rewrite take_app_length. }
  assert (Hin : z ∈ a :: l).
  { rewrite Hsplit. apply elem_of_app. right. apply list_elem_of_singleton.
    reflexivity. }
  rewrite Hsplit in Hnodup. apply NoDup_app in Hnodup as (_ & Hdisj & _).
  apply not_elem_of_cons. split.
  - intros Heq. rewrite Heq in Hin.
    apply elem_of_cons in Hin as [Hca|Hcl']; [by apply Hne|by apply Hnotin].
  - intros Hin'. apply (Hdisj z Hin'). apply list_elem_of_singleton.
    reflexivity.
Qed.

(** X2. Raising is idempotent: a second call for the same component
    right after the first changes nothing, whatever the registry. *)
Theorem raiseComponent_idempotent w c :
  (raiseComponent c ;;; raiseComponent c) w = raiseComponent c w.
Proof.
  unfold bind.
  destruct (raiseComponent c w) as [[] w1| |] eqn:Hfirst; [|done..].
  revert Hfirst. unfold raiseComponent at 1.
  destruct (Z.leb_spec (num_components (tui_globalcontext w)) 1) as [Hle|Hgt].
  { intros [= <-]. unfold raiseComponent.
    by destruct (Z.leb_spec (num_components (tui_globalcontext w)) 1); [|lia]. }
  destruct (componentList (tui_globalcontext w) !! 0%nat) as [tmp|] eqn:Htmp;
    [|done].
  destruct (N.eqb_spec tmp c) as [->|Hne].
  { intros [= <-]. unfold raiseComponent.
    destruct (Z.leb_spec (num_components (tui_globalcontext w)) 1); [done|].
    by rewrite Htmp, N.eqb_refl. }
  destruct (raise_loop _ _ _ _ _) as [components'|] eqn:Hloop; [|done].
  intros [= <-]. unfold raiseComponent. simpl.
  destruct (Z.leb_spec (num_components (tui_globalcontext w)) 1); [done|].
  rewrite (raise_loop_prefix _ _ _ _ _ _ 0%nat Hloop) by lia.
  rewrite list_lookup_insert_eq by (apply lookup_lt_Some in Htmp; lia).
  by rewrite N.eqb_refl.
Qed.

Lemma filter_ne_absent l c : c ∉ l -> filter (fun p => p <> c) l = l.
Proof.
  induction l as [|a l IH]; [done|].
  intros [Hne Hnotin]%not_elem_of_cons.
  rewrite filter_cons_True by done. by rewrite IH.
Qed.

(** With no member registered twice, raising a registered component puts
    it in front of the others. *)
Lemma raiseComponent_NoDup w c :
  NoDup (registry (tui_globalcontext w)) ->
  c ∈ registry (tui_globalcontext w) ->
  exists w',
    raiseComponent c w = Ret tt w' /\
    registry (tui_globalcontext w')
    = c :: filter (fun p => p <> c) (registry (tui_globalcontext w)) /\
    NoDup (registry (tui_globalcontext w')) /\
    heap w' = heap w /\
    num_components (tui_globalcontext w') = num_components (tui_globalcontext w).
Proof.
  intros Hnodup Hin.
  destruct (list_elem_of_split_l _ _ Hin) as (l1 & l2 & Hreg & Hnotin).
  destruct (raiseComponent_registered w c l1 l2 Hreg Hnotin) as [Hcall Hreg'].
  rewrite Hreg in Hnodup.
  apply NoDup_app in Hnodup as (Hnd1 & Hdisj & [Hnotin2 Hnd2]%NoDup_cons).
  assert (Hfilter : filter (fun p => p <> c) (registry (tui_globalcontext w))
                    = l1 ++ l2).
  { rewrite Hreg, filter_app, filter_cons_False by naive_solver.
    by rewrite !filter_ne_absent. }
  eexists. split; [exact Hcall|]. split; [by rewrite Hreg', Hfilter|].
  split; [|done]. rewrite Hreg'. apply NoDup_cons. split.
  - rewrite elem_of_app. tauto.
  - apply NoDup_app. split; [done|]. split; [|done].
    intros x Hx1 Hx2. apply (Hdisj x Hx1). by right.
Qed.

(** X3. In a registry without duplicates, raising [a] and then [b]
    (two different registered components) leaves [b] in the front slot,
    [a] right behind it and the other members behind them in their old
    order. *)
Theorem raiseComponent_twice w a b :
  NoDup (registry (tui_globalcontext w)) ->
  a ∈ registry (tui_globalcontext w) ->
  b ∈ registry (tui_globalcontext w) ->
  a <> b ->
  exists w2,
    (raiseComponent a ;;; raiseComponent b) w = Ret tt w2 /\
    registry (tui_globalcontext w2)
    = b :: a :: filter (fun p => p <> b)
                  (filter (fun p => p <> a) (registry (tui_globalcontext w))) /\
    registry (tui_globalcontext w2) ≡ₚ registry (tui_globalcontext w).
Proof.
  intros Hnodup Ha Hb Hab.
  destruct (raiseComponent_NoDup w a Hnodup Ha) as (w1 & H1 & Hreg1 & Hnd1 & _).
  assert (Hb1 : b ∈ registry (tui_globalcontext w1)).
  { rewrite Hreg1. right. apply list_elem_of_filter. split; [congruence|done]. }
  destruct (raiseComponent_NoDup w1 b Hnd1 Hb1) as (w2 & H2 & Hreg2 & Hnd2 & _).
  exists w2. unfold bind. rewrite H1.
  split; [exact H2|].
  assert (Hreg2' : registry (tui_globalcontext w2)
    = b :: a :: filter (fun p => p <> b)
                  (filter (fun p => p <> a) (registry (tui_globalcontext w)))).
  { rewrite Hreg2, Hreg1. by rewrite filter_cons_True by done. }
  split; [exact Hreg2'|].
  apply NoDup_Permutation; [done|done|].
  intros x. rewrite Hreg2', !elem_of_cons, !list_elem_of_filter.
  destruct (decide (x = b)) as [->|]; [tauto|].
  destruct (decide (x = a)) as [->|]; tauto.
Qed.

End RegistryMore.

Section RaiseThenDispatch.
Context {App TMT : Type}.
Variable call_onClick : fnptr -> MouseEvent -> @M App TMT Z.
Variable call_onKeypress : fnptr -> KeyEvent -> @M App TMT Z.
Implicit Types (w : @World App TMT) (e : Event).

Local Abbreviation dispatch_loop := (dispatch_loop call_onClick call_onKeypress).
Local Abbreviation applicable_handler :=
  (applicable_handler call_onClick call_onKeypress).

(** X4. A raised component is served first: after [raiseComponent c]
    for a registered, live component with a handler applicable to the
    event, the loop of [handle_event] invokes that handler before any
    other, and goes on to the slots behind only when it declines. *)
Theorem raised_component_first w c comp e h :
  c ∈ registry (tui_globalcontext w) ->
  heap w !! c = Some comp ->
  is_input e ->
  is_uint16 (num_components (tui_globalcontext w)) ->
  applicable_handler e comp = Some h ->
  exists w',
    raiseComponent c w = Ret tt w' /\
    dispatch_loop dispatch_fuel 0 e w'
    = (r <- h ;;
       if to_bool r then ret (set_handled e true)
       else dispatch_loop (dispatch_fuel - 1) 1 (set_handled e false)) w'.
Proof.
  intros Hin Hcomp Hinput Hnc Hh.
  destruct (list_elem_of_split_l _ _ Hin) as (l1 & l2 & Hreg & Hnotin).
  destruct (raiseComponent_registered w c l1 l2 Hreg Hnotin) as [Hcall Hreg'].
  eexists. split; [exact Hcall|].
  set (w' := with_context _ w) in *.
  assert (Hpos : 0 < num_components (tui_globalcontext w)).
  { apply (f_equal length) in Hreg. unfold registry in Hreg.
    rewrite length_take, length_app in Hreg. simpl in Hreg. lia. }
  assert (Hslot : componentList (tui_globalcontext w') !! 0%nat = Some c).
  { apply (f_equal (fun l => l !! 0%nat)) in Hreg'. unfold registry in Hreg'.
    rewrite lookup_take_lt in Hreg' by (change (num_components (tui_globalcontext w'))
      with (num_components (tui_globalcontext w)); lia).
    exact Hreg'. }
  pose proof (dispatch_fuel_eq) as Hfuel.
  replace dispatch_fuel with (S (dispatch_fuel - 1)) at 1 by lia.
  apply (dispatch_loop_invoke call_onClick call_onKeypress
           (dispatch_fuel - 1) 0 e w' c comp h); try done.
Qed.

End RaiseThenDispatch.

(** ** Size, errors, set-up and tear-down, beyond the idempotence *)

Section LifecycleMore.
Context {App TMT : Type}.
Variable tmt_open : Z -> Z -> gmap N TMT -> ptr * gmap N TMT.
Implicit Types (w : @World App TMT).

Lemma wrap16_uint16 z : is_uint16 z -> wrap16 z = z.
Proof. unfold is_uint16, UINT16_MAX, wrap16. intros. apply Z.mod_small. lia. Qed.

Lemma raw_mode_flags t :
  Z.land (c_lflag (raw_mode t)) ECHO = 0 /\ Z.land (c_lflag (raw_mode t)) ICANON = 0.
Proof.
  unfold raw_mode. simpl. split; rewrite <- Z.land_assoc.
  - change (Z.land (Z.land (Z.lnot ECHO) (Z.lnot ICANON)) ECHO) with 0.
    apply Z.land_0_r.
  - change (Z.land (Z.land (Z.lnot ECHO) (Z.lnot ICANON)) ICANON) with 0.
    apply Z.land_0_r.
Qed.

Lemma raw_mode_idempotent t : raw_mode (raw_mode t) = raw_mode t.
Proof.
  unfold raw_mode. simpl. f_equal.
  by rewrite <- Z.land_assoc, Z.land_diag.
Qed.


(** X6. [tui_error] never returns: from every state it exits with
    status 1, the runtime is inactive afterwards and the last call made
    is the write of the message and a newline to the error stream; from
    an active runtime the saved terminal mode and signal handlers are
    back in force, from an inactive one nothing but that write
    happens. *)
Theorem tui_error_exits (message : string) w :
  exists w',
    tui_error message w = Exited 1 w' /\
    _tui_active w' = 0 /\
    last (os_trace (os w')) = Some (sys_write 2 (message +:+ LF)) /\
    (_tui_active w <> 0 ->
     os_tio (os w') = _old_tio w /\
     os_sigint (os w') = _old_sigint w /\
     os_sigterm (os w') = _old_sigterm w /\
     os_sigwinch (os w') = _old_sigwinch w) /\
    (_tui_active w = 0 ->
     w' = with_os (log (sys_write 2 (message +:+ LF)) (os w)) w).
Proof.
  unfold tui_error, bind.
  destruct (decide (_tui_active w = 0)) as [Hoff|Hact].
  - rewrite (tui_deinit_inactive w Hoff). eexists. split; [reflexivity|].
    simpl. split; [done|]. split; [apply last_snoc|]. split; [done|done].
  - destruct (tui_deinit_active w Hact)
      as (w1 & Hret & Hoff & _ & Htio & Hint & Hterm & Hwinch).
    rewrite Hret. eexists. split; [reflexivity|].
    simpl. split; [done|]. split; [apply last_snoc|]. split; [done|done].
Qed.

(** Set-up, in full: what the state is when [tui_init] returns. *)
Lemma tui_init_returns w0 (l u : string) :
  os_locale (os w0) = Some l ->
  utf8_locale (os_locales (os w0)) = Some u ->
  is_uint16 (os_ws_row (os w0)) -> is_uint16 (os_ws_col (os w0)) ->
  exists w,
    tui_init tmt_open w0 = Ret tt w /\
    _tui_active w = 1 /\
    (_old_tio w = os_tio (os w0) /\
     _old_sigint w = os_sigint (os w0) /\
     _old_sigterm w = os_sigterm (os w0) /\
     _old_sigwinch w = os_sigwinch (os w0) /\
     _old_locale w = Some l) /\
    (os_tio (os w) = raw_mode (os_tio (os w0)) /\
     os_sigint (os w) = sigint_sigterm_handler /\
     os_sigterm (os w) = sigint_sigterm_handler /\
     os_sigwinch (os w) = sigwinch_handler /\
     os_locale (os w) = Some u) /\
    (os_locales (os w) = os_locales (os w0) /\
     os_ws_row (os w) = os_ws_row (os w0) /\
     os_ws_col (os w) = os_ws_col (os w0)) /\
    tui_globalcontext w
    = {| screen := fst (tmt_open (os_ws_row (os w0)) (os_ws_col (os w0)) (tmts w0));
         window_width := os_ws_col (os w0);
         window_height := os_ws_row (os w0);
         _needs_resize := false; _exiting := false;
         num_components := 0;
         componentList := replicate MAX_COMPONENTS NULL;
         rootComponent := NULL |} /\
    tmts w = snd (tmt_open (os_ws_row (os w0)) (os_ws_col (os w0)) (tmts w0)) /\
    heap w = heap w0.
Proof.
  intros Hloc Hutf Hrow Hcol.
  pose proof (wrap16_uint16 _ Hrow) as Hwr.
  pose proof (wrap16_uint16 _ Hcol) as Hwc.
  unfold is_uint16 in Hrow, Hcol.
  unfold tui_init, updateSize, tui_error. run_actions. simpl.
  rewrite Hloc. simpl. unfold utf8_locale in Hutf.
  destruct (bool_decide ("C.UTF-8"%string ∈ os_locales (os w0))) eqn:Hc; simpl.
  - injection Hutf as <-.
    destruct (Z.gtb_spec (os_ws_row (os w0)) UINT16_MAX); [lia|].
    destruct (Z.gtb_spec (os_ws_col (os w0)) UINT16_MAX); [lia|].
    simpl. eexists. split; [reflexivity|]. simpl. rewrite Hwr, Hwc.
    by repeat split.
  - destruct (bool_decide ("en_US.UTF-8"%string ∈ os_locales (os w0))) eqn:He;
      [|done]. injection Hutf as <-. simpl.
    destruct (Z.gtb_spec (os_ws_row (os w0)) UINT16_MAX); [lia|].
    destruct (Z.gtb_spec (os_ws_col (os w0)) UINT16_MAX); [lia|].
    simpl. eexists. split; [reflexivity|]. simpl. rewrite Hwr, Hwc.
    by repeat split.
Qed.


(** X7. On a system whose locale can be queried, that offers [C.UTF-8]
    or [en_US.UTF-8], and whose terminal has a size within 16 bits,
    [tui_init] returns with the runtime active, the registry empty (all
    64 slots null, no root), both latches clear, the window size that of
    the terminal, the terminal in the mode it had with [ECHO] and
    [ICANON] cleared, the runtime's handlers installed for the three
    signals, and the first available of the two locales selected. *)
Theorem tui_init_establishes w0 (l u : string) :
  os_locale (os w0) = Some l ->
  utf8_locale (os_locales (os w0)) = Some u ->
  is_uint16 (os_ws_row (os w0)) -> is_uint16 (os_ws_col (os w0)) ->
  exists w,
    tui_init tmt_open w0 = Ret tt w /\
    _tui_active w = 1 /\
    registry (tui_globalcontext w) = [] /\
    componentList (tui_globalcontext w) = replicate MAX_COMPONENTS NULL /\
    rootComponent (tui_globalcontext w) = NULL /\
    _needs_resize (tui_globalcontext w) = false /\
    _exiting (tui_globalcontext w) = false /\
    window_width (tui_globalcontext w) = os_ws_col (os w0) /\
    window_height (tui_globalcontext w) = os_ws_row (os w0) /\
    os_tio (os w) = raw_mode (os_tio (os w0)) /\
    Z.land (c_lflag (os_tio (os w))) ECHO = 0 /\
    Z.land (c_lflag (os_tio (os w))) ICANON = 0 /\
    os_sigint (os w) = sigint_sigterm_handler /\
    os_sigterm (os w) = sigint_sigterm_handler /\
    os_sigwinch (os w) = sigwinch_handler /\
    os_locale (os w) = Some u.
Proof.
  intros Hloc Hutf Hrow Hcol.
  destruct (tui_init_returns w0 l u Hloc Hutf Hrow Hcol)
    as (w & Hret & Hact & _ & (Htio & Hint & Hterm & Hwinch & Hlocale) & _
        & Hctx & _).
  exists w. split; [done|]. split; [done|].
  unfold registry. rewrite Hctx. simpl.
  do 7 (split; [done|]). split; [done|].
  rewrite Htio. pose proof (raw_mode_flags (os_tio (os w0))) as [He Hi].
  by repeat split.
Qed.

(** X8. When the locale cannot be queried, or neither UTF-8 locale
    can be selected, [tui_init] called on an inactive runtime exits with
    status 1 and leaves the terminal in raw mode: the only mode or
    handler write it made is the [tcsetattr] that cleared [ECHO] and
    [ICANON]; the signal handlers are not yet installed and the runtime
    is inactive, so the tear-down inside [tui_error] restores nothing. *)
Theorem tui_init_failure_leaves_raw_mode w0 :
  _tui_active w0 = 0 ->
  os_locale (os w0) = None \/ utf8_locale (os_locales (os w0)) = None ->
  exists w' calls,
    tui_init tmt_open w0 = Exited 1 w' /\
    _tui_active w' = 0 /\
    os_tio (os w') = raw_mode (os_tio (os w0)) /\
    os_sigint (os w') = os_sigint (os w0) /\
    os_sigterm (os w') = os_sigterm (os w0) /\
    os_sigwinch (os w') = os_sigwinch (os w0) /\
    os_trace (os w') = os_trace (os w0) ++ calls /\
    filter is_restore_call calls = [sys_tcsetattr 1 (raw_mode (os_tio (os w0)))].
Proof.
  intros Hoff Hfail.
  unfold tui_init, tui_error, tui_deinit. run_actions. simpl.
  destruct (os_locale (os w0)) as [l|] eqn:Hloc; simpl.
  - destruct Hfail as [?|Hutf]; [done|]. unfold utf8_locale in Hutf.
    destruct (bool_decide ("C.UTF-8"%string ∈ os_locales (os w0))) eqn:Hc;
      [done|].
    destruct (bool_decide ("en_US.UTF-8"%string ∈ os_locales (os w0))) eqn:He;
      [done|].
    simpl. rewrite He. simpl. rewrite Hoff. simpl.
    eexists. eexists. split; [reflexivity|]. simpl.
    do 5 (split; [done|]).
    split; [rewrite <- !app_assoc; reflexivity|reflexivity].
  - rewrite Hoff. simpl.
    eexists. eexists. split; [reflexivity|]. simpl.
    do 5 (split; [done|]).
    split; [rewrite <- !app_assoc; reflexivity|reflexivity].
Qed.


(** X10. [tui_init] is not re-entrant: a second call on an active
    runtime saves the raw mode and the runtime's own handlers as the
    ones to restore, so the tear-down that follows leaves the terminal
    in raw mode and the runtime's handlers installed. *)
Theorem tui_init_twice_loses_saved_state w0 (l u : string) :
  os_locale (os w0) = Some l ->
  utf8_locale (os_locales (os w0)) = Some u ->
  is_uint16 (os_ws_row (os w0)) -> is_uint16 (os_ws_col (os w0)) ->
  exists w3,
    (tui_init tmt_open ;;; tui_init tmt_open ;;; tui_deinit) w0 = Ret tt w3 /\
    _tui_active w3 = 0 /\
    os_tio (os w3) = raw_mode (os_tio (os w0)) /\
    os_sigint (os w3) = sigint_sigterm_handler /\
    os_sigterm (os w3) = sigint_sigterm_handler /\
    os_sigwinch (os w3) = sigwinch_handler.
Proof.
  intros Hloc Hutf Hrow Hcol.
  destruct (tui_init_returns w0 l u Hloc Hutf Hrow Hcol)
    as (w1 & Hinit1 & _ & _ & (Htio1 & Hint1 & Hterm1 & Hwinch1 & Hlocale1)
        & (Hlocs & Hr & Hc) & _).
  destruct (tui_init_returns w1 u u) as (w2 & Hinit2 & Hact2
    & (Htio2 & Hint2 & Hterm2 & Hwinch2 & _) & _);
    [done|by rewrite Hlocs|by rewrite Hr|by rewrite Hc|].
  destruct (tui_deinit_active w2) as (w3 & Hret & Hoff & _ & H1 & H2 & H3 & H4);
    [lia|].
  exists w3. unfold bind. rewrite Hinit1, Hinit2, Hret.
  split; [done|]. split; [done|].
  rewrite H1, H2, H3, H4, Htio2, Hint2, Hterm2, Hwinch2.
  by rewrite Htio1, Hint1, Hterm1, Hwinch1.
Qed.

End LifecycleMore.

(** ** The dispatcher, beyond the order of dispatch *)

Section DispatchMore.
Context {App TMT : Type}.
Variable tmt_screen : TMT -> TMTSCREEN.
Variable tmt_write : TMT -> list Z -> TMT.
Variable wctomb : Z -> option (list Z).
Variable call_onClick : fnptr -> MouseEvent -> @M App TMT Z.
Variable call_onKeypress : fnptr -> KeyEvent -> @M App TMT Z.
Variable call_render : fnptr -> ptr -> @M App TMT unit.
Variable call_resize : fnptr -> Position -> @M App TMT unit.
Implicit Types (w : @World App TMT) (e : Event).

Local Abbreviation dispatch_loop := (dispatch_loop call_onClick call_onKeypress).
Local Abbreviation handle_event :=
  (handle_event call_onClick call_onKeypress call_resize).
Local Abbreviation handle_resize := (handle_resize call_resize).
Local Abbreviation render_window :=
  (render_window tmt_screen tmt_write wctomb call_render).
Local Abbreviation passed_over := (passed_over call_onClick call_onKeypress).

(** Tear-down touches the process environment and the activity flag
    only. *)
Lemma tui_deinit_frame w w1 :
  tui_deinit w = Ret tt w1 ->
  tui_globalcontext w1 = tui_globalcontext w /\ heap w1 = heap w /\
  tmts w1 = tmts w /\ app w1 = app w.
Proof.
  unfold tui_deinit. destruct (_tui_active w =? 0); [by intros [= <-]|].
  run_actions. simpl. by intros [= <-].
Qed.

(** The resize branch entered without a root: it cannot return. *)
Lemma handle_resize_null_root e w :
  rootComponent (tui_globalcontext w) = NULL ->
  heap w !! NULL = None ->
  forall e' w', handle_resize e w <> Ret e' w'.
Proof.
  intros Hroot Hnull e' w'. unfold handle_resize, updateSize. run_actions. simpl.
  destruct ((os_ws_row (os w) >? UINT16_MAX) || (os_ws_col (os w) >? UINT16_MAX));
    simpl; [done|].
  by rewrite Hroot, Hnull.
Qed.

(** Every way [handle_event] has of returning. *)
Lemma handle_event_returns w e w' :
  heap w !! NULL = None ->
  handle_event w = Ret e w' ->
  _tui_active w <> 0 /\
  rootComponent (tui_globalcontext w) = NULL /\
  ((_exiting (tui_globalcontext w) = true /\
    e = set_handled (set_kind Event_uninitialized END) true /\
    tui_deinit w = Ret tt w') \/
   (_exiting (tui_globalcontext w) = false /\
    _needs_resize (tui_globalcontext w) = false /\
    num_components (tui_globalcontext w) <= 0 /\
    e = Event_uninitialized /\ w' = w)).
Proof.
  intros Hnull Hret.
  destruct (decide (_tui_active w = 0)) as [Hoff|Hact].
  { by rewrite (handle_event_inactive _ _ _ w Hoff) in Hret. }
  destruct (decide (rootComponent (tui_globalcontext w) = NULL)) as [Hroot|Hroot].
  2:{ destruct (handle_event_root_assigned call_onClick call_onKeypress
                  call_resize w Hact Hroot) as (w1 & _ & Hexit).
      by rewrite Hexit in Hret. }
  split; [done|]. split; [done|].
  rewrite (handle_event_no_root _ _ _ w Hact Hroot) in Hret.
  destruct (_exiting (tui_globalcontext w)) eqn:Hexiting.
  - left. split; [done|]. unfold bind in Hret.
    destruct (tui_deinit w) as [[] w1| |]; [|done..].
    by injection Hret as <- <-.
  - right. split; [done|].
    destruct (_needs_resize (tui_globalcontext w)) eqn:Hresize.
    { by apply handle_resize_null_root in Hret. }
    split; [done|].
    pose proof dispatch_fuel_eq as Hfuel.
    replace dispatch_fuel with (S (dispatch_fuel - 1)) in Hret by lia.
    rewrite dispatch_loop_uninitialized in Hret.
    destruct (Z.ltb_spec 0 (num_components (tui_globalcontext w))); [done|].
    by injection Hret as <- <-.
Qed.

(** X11. Shutdown. After the handler of SIGINT and SIGTERM has run on
    an active runtime that passes the guards, the next [handle_event]
    tears the runtime down and returns a handled [END] event, whatever
    the resize latch says (it is left as it was); the terminal mode is
    the saved one, and one more [handle_event] is the fatal error of an
    inactive runtime. *)
Theorem handle_event_after_sigint w :
  _tui_active w <> 0 ->
  rootComponent (tui_globalcontext w) = NULL ->
  exists w',
    handle_event (run_sigint_sigterm_handler w)
    = Ret {| handled := Some true; kind := Some END; payload := Indeterminate |} w' /\
    _tui_active w' = 0 /\
    os_tio (os w') = _old_tio w /\
    _needs_resize (tui_globalcontext w') = _needs_resize (tui_globalcontext w) /\
    handle_event w'
    = Exited 1 (with_os (log (sys_write 2 ("Root component not initialized." +:+ LF))
                             (os w')) w').
Proof.
  intros Hact Hroot.
  set (ws := run_sigint_sigterm_handler w).
  destruct (tui_deinit_active ws Hact) as (w' & Hret & Hoff & _ & Htio & _).
  destruct (tui_deinit_frame ws w' Hret) as (Hctx & _).
  exists w'. split.
  - rewrite (handle_event_no_root _ _ _ ws Hact Hroot). simpl.
    unfold bind. by rewrite Hret.
  - split; [done|]. split; [done|]. split; [by rewrite Hctx|].
    by apply handle_event_inactive.
Qed.


(** [render_window] without a root calls through the null pointer. *)
Lemma render_window_no_root w :
  rootComponent (tui_globalcontext w) = NULL ->
  heap w !! NULL = None ->
  render_window w = Fault.
Proof.
  intros Hroot Hnull. unfold render_window. run_actions. simpl.
  by rewrite Hroot, Hnull.
Qed.

(** X13. One turn of the loop of [example_main] cannot complete: with
    nothing living at the null address, whenever [handle_event] returns
    an event other than [END], the [render_window] that follows calls
    through the null root component. *)
Theorem handle_event_then_render_window w e w' :
  heap w !! NULL = None ->
  handle_event w = Ret e w' ->
  kind e <> Some END ->
  render_window w' = Fault.
Proof.
  intros Hnull Hret Hkind.
  destruct (handle_event_returns w e w' Hnull Hret)
    as (_ & Hroot & [(_ & -> & _)|(_ & _ & _ & _ & ->)]); [done|].
  by apply render_window_no_root.
Qed.

(** Events that are neither key nor mouse events run through the loop
    untouched. *)
Lemma dispatch_loop_ignores fuel : forall (i : Z) e w,
  0 <= i ->
  is_uint16 (num_components (tui_globalcontext w)) ->
  kind e = Some END \/ kind e = Some RESIZE ->
  (Z.to_nat (num_components (tui_globalcontext w) - i) < fuel)%nat ->
  dispatch_loop fuel i e w = Ret e w.
Proof.
  induction fuel as [|fuel IH]; intros i e w Hi Hnc Hkind Hfuel; [lia|].
  simpl. unfold bind at 1. unfold get.
  destruct (Z.ltb_spec i (num_components (tui_globalcontext w))); [|done].
  simpl. rewrite (wrap16_succ i _ Hi H Hnc).
  destruct Hkind as [Hk|Hk]; rewrite Hk; apply IH; auto; lia.
Qed.

(** X14. An event whose kind is [END] or [RESIZE] passes through the
    loop of [handle_event] unchanged: no handler is invoked, no slot of
    the registry is dereferenced (they may be null or dangling), and the
    state is untouched. *)
Theorem dispatch_loop_other_kinds e w :
  is_uint16 (num_components (tui_globalcontext w)) ->
  kind e = Some END \/ kind e = Some RESIZE ->
  dispatch_loop dispatch_fuel 0 e w = Ret e w.
Proof.
  intros Hnc Hkind. apply dispatch_loop_ignores; [lia|done|done|].
  pose proof dispatch_fuel_eq. unfold is_uint16, UINT16_MAX in Hnc. lia.
Qed.

(** X15. The loop of [handle_event] changes nothing of the event but
    its [handled] flag: a returned event has the kind and the payload it
    came in with. *)
Theorem dispatch_loop_keeps_kind_payload fuel : forall (i : Z) e w e' w',
  dispatch_loop fuel i e w = Ret e' w' ->
  kind e' = kind e /\ payload e' = payload e.
Proof.
  induction fuel as [|fuel IH]; intros i e w e' w'; [done|].
  simpl. unfold bind at 1. unfold get.
  destruct (i <? num_components (tui_globalcontext w)); simpl;
    [|by intros [= <- _]].
  destruct (kind e) as [[]|] eqn:Hkind; rewrite <- ?Hkind; try done.
  - intros Hret. by apply IH in Hret.
  - intros Hret. by apply IH in Hret.
  - unfold bind at 1. destruct (component_at i w) as [c w1| |]; [|done..].
    destruct (onClick c) as [f|].
    + unfold bind at 1. unfold read_mouseEvent.
      destruct (payload e) as [| |m|] eqn:Hpay; rewrite <- ?Hpay; try done.
      unfold ret.
      destruct (inComponent c (mouse_x m) (mouse_y m)).
      * unfold bind. destruct (call_onClick f m w1) as [r w2| |]; [|done..].
        destruct (to_bool r).
        -- by intros [= <- _].
        -- intros Hret. by apply IH in Hret.
      * intros Hret. by apply IH in Hret.
    + intros Hret. by apply IH in Hret.
  - unfold bind at 1. destruct (component_at i w) as [c w1| |]; [|done..].
    destruct (onKeypress c) as [f|].
    + unfold bind at 1. unfold read_keyEvent.
      destruct (payload e) as [| | |k] eqn:Hpay; rewrite <- ?Hpay; try done.
      unfold ret.
      unfold bind. destruct (call_onKeypress f k w1) as [r w2| |]; [|done..].
      destruct (to_bool r).
      * by intros [= <- _].
      * intros Hret. by apply IH in Hret.
    + intros Hret. by apply IH in Hret.
Qed.

(** X16. The loop of [handle_event] checks neither the array bound nor
    the slots: on a key or mouse event, when the components in front
    are passed over and the next slot below [num_components] lies past
    the array, or holds a pointer to no live component (a null slot for
    one), the loop leaves defined behaviour. *)
Theorem dispatch_loop_bad_slot e w (j : nat) :
  is_input e ->
  is_uint16 (num_components (tui_globalcontext w)) ->
  Z.of_nat j < num_components (tui_globalcontext w) ->
  (forall k, (k < j)%nat -> passed_over w e k) ->
  componentList (tui_globalcontext w) !! j = None \/
  (exists p, componentList (tui_globalcontext w) !! j = Some p /\
             heap w !! p = None) ->
  dispatch_loop dispatch_fuel 0 e w = Fault.
Proof.
  intros Hin Hnc Hj Hpass Hbad.
  pose proof dispatch_fuel_eq as Hfuel.
  assert (Hskip : dispatch_loop dispatch_fuel 0 e w
                  = dispatch_loop (S (dispatch_fuel - S j)) (Z.of_nat j) e w).
  { replace dispatch_fuel with (j + S (dispatch_fuel - S j))%nat at 1
      by (unfold is_uint16, UINT16_MAX in Hnc; lia).
    apply (dispatch_loop_skip call_onClick call_onKeypress j _ 0 e w);
      [done..|lia|].
    intros k Hk. apply Hpass. lia. }
  rewrite Hskip. clear Hskip Hfuel.
  generalize (dispatch_fuel - S j)%nat as fuel. intros fuel.
  simpl. unfold bind at 1. unfold get.
  destruct (Z.ltb_spec (Z.of_nat j) (num_components (tui_globalcontext w)));
    [|lia]. simpl.
  assert (Hat : component_at (Z.of_nat j) w = Fault).
  { unfold component_at. rewrite Nat2Z.id.
    destruct Hbad as [-> | (p & -> & ->)]; done. }
  destruct Hin as [[-> _]|[-> _]]; unfold bind; by rewrite Hat.
Qed.

End DispatchMore.

(** ** The render pass as a function of the screen *)

Section RenderMore.
Context {App TMT : Type}.
Variable tmt_screen : TMT -> TMTSCREEN.
Variable tmt_write : TMT -> list Z -> TMT.
Variable wctomb : Z -> option (list Z).
Implicit Types (w : @World App TMT) (scr tmt : ptr).

Local Abbreviation encode_char := (encode_char wctomb).
Local Abbreviation encode_bytes := (encode_bytes wctomb).
Local Abbreviation line_output := (line_output wctomb).
Local Abbreviation screen_output := (screen_output wctomb).
Local Abbreviation write_cell := (write_cell tmt_screen tmt_write wctomb).
Local Abbreviation write_cells := (write_cells tmt_screen tmt_write wctomb).
Local Abbreviation write_line := (write_line tmt_screen tmt_write wctomb).
Local Abbreviation write_lines := (write_lines tmt_screen tmt_write wctomb).
Local Abbreviation writescreen := (writescreen tmt_screen tmt_write wctomb).

Lemma encode_char_bytes c : encode_char c = Some (encode_bytes c).
Proof.
  unfold encode_char, encode_bytes. by destruct (wctomb c).
Qed.

Lemma with_tmts_id w : with_tmts (tmts w) w = w.
Proof. by destruct w. Qed.

Lemma with_tmts_insert_id w tmt (tg : TMT) :
  tmts w !! tmt = Some tg -> with_tmts (<[tmt := tg]> (tmts w)) w = w.
Proof. intros H. rewrite insert_id by done. apply with_tmts_id. Qed.

Section Unaliased.
Variables (scr tmt : ptr) (vt : TMT).
Hypothesis Hne : tmt <> scr.

(** One cell, with the output going to another object than the screen. *)
Lemma write_cell_unaliased w tg line ch lnum cnum :
  tmts w !! scr = Some vt -> tmts w !! tmt = Some tg ->
  lines (tmt_screen vt) !! lnum = Some line ->
  chars line !! cnum = Some ch ->
  write_cell scr tmt lnum cnum w
  = Ret (encode_bytes (ch_c ch))
        (with_tmts (<[tmt := tmt_write tg (encode_bytes (ch_c ch))]> (tmts w)) w).
Proof.
  intros Hscr Htg Hline Hch. unfold write_cell.
  by rewrite Hscr, Hline, Hch, encode_char_bytes, Htg.
Qed.

Lemma write_cells_unaliased line lnum n : forall cnum w tg,
  tmts w !! scr = Some vt -> tmts w !! tmt = Some tg ->
  lines (tmt_screen vt) !! lnum = Some line ->
  (cnum + n <= length (chars line))%nat ->
  let out := (fun ch => encode_bytes (ch_c ch)) <$> take n (drop cnum (chars line)) in
  write_cells scr tmt lnum cnum n w
  = Ret out (with_tmts (<[tmt := foldl tmt_write tg out]> (tmts w)) w).
Proof.
  induction n as [|n IH]; intros cnum w tg Hscr Htg Hline Hlen; simpl.
  - unfold ret. by rewrite with_tmts_insert_id.
  - destruct (lookup_lt_is_Some_2 (chars line) cnum) as [ch Hch]; [lia|].
    unfold bind at 1.
    rewrite (write_cell_unaliased w tg line ch lnum cnum) by done.
    set (tg1 := tmt_write tg (encode_bytes (ch_c ch))).
    set (w1 := with_tmts (<[tmt := tg1]> (tmts w)) w).
    unfold bind at 1.
    rewrite (IH (S cnum) w1 tg1);
      [|by subst w1; simpl; rewrite lookup_insert_ne
       |by subst w1; simpl; rewrite lookup_insert_eq|done|lia].
    unfold ret. rewrite (drop_S _ _ _ Hch). simpl.
    subst w1. simpl. by rewrite insert_insert_eq.
Qed.

Lemma write_line_unaliased w tg line ncol lnum :
  tmts w !! scr = Some vt -> tmts w !! tmt = Some tg ->
  lines (tmt_screen vt) !! lnum = Some line ->
  (ncol <= length (chars line))%nat ->
  write_line scr tmt ncol lnum w
  = Ret (line_output ncol line)
        (with_tmts (<[tmt := foldl tmt_write tg (line_output ncol line)]> (tmts w)) w).
Proof.
  intros Hscr Htg Hline Hlen. unfold write_line, line_output.
  rewrite Hscr, Hline. destruct (dirty line); simpl.
  - by rewrite (write_cells_unaliased line lnum ncol 0 w tg).
  - by rewrite with_tmts_insert_id.
Qed.

Lemma write_lines_unaliased ncol n : forall lnum w tg,
  tmts w !! scr = Some vt -> tmts w !! tmt = Some tg ->
  (lnum + n <= length (lines (tmt_screen vt)))%nat ->
  Forall (fun line => ncol <= length (chars line))%nat (lines (tmt_screen vt)) ->
  let out := concat (line_output ncol <$> take n (drop lnum (lines (tmt_screen vt)))) in
  write_lines scr tmt ncol lnum n w
  = Ret out (with_tmts (<[tmt := foldl tmt_write tg out]> (tmts w)) w).
Proof.
  induction n as [|n IH]; intros lnum w tg Hscr Htg Hlen Hall; simpl.
  - unfold ret. by rewrite with_tmts_insert_id.
  - destruct (lookup_lt_is_Some_2 (lines (tmt_screen vt)) lnum) as [line Hline];
      [lia|].
    assert (ncol <= length (chars line))%nat
      by (eapply (proj1 (Forall_lookup _ _) Hall); eassumption).
    unfold bind at 1.
    rewrite (write_line_unaliased w tg line ncol lnum) by done.
    set (tg1 := foldl tmt_write tg (line_output ncol line)).
    set (w1 := with_tmts (<[tmt := tg1]> (tmts w)) w).
    unfold bind at 1.
    rewrite (IH (S lnum) w1 tg1);
      [|by subst w1; simpl; rewrite lookup_insert_ne
       |by subst w1; simpl; rewrite lookup_insert_eq|lia|done].
    unfold ret. rewrite (drop_S _ _ _ Hline). simpl.
    subst w1 tg1. simpl. by rewrite insert_insert_eq, foldl_app.
Qed.

End Unaliased.

(** The pass with the output going to another terminal object than the
    screen it reads. *)
Lemma writescreen_unaliased_eq tmt w vt tg :
  tmt <> screen (tui_globalcontext w) ->
  tmts w !! screen (tui_globalcontext w) = Some vt ->
  tmts w !! tmt = Some tg ->
  well_formed_screen (tmt_screen vt) ->
  writescreen tmt w
  = Ret (screen_output (tmt_screen vt))
        (with_tmts (<[tmt := foldl tmt_write tg (screen_output (tmt_screen vt))]>
                      (tmts w)) w).
Proof.
  intros Hne Hscr Htg [Hnline Hncol]. unfold writescreen. rewrite Hscr.
  unfold screen_shape in Hncol. rewrite Forall_fmap in Hncol.
  by rewrite (write_lines_unaliased _ tmt vt Hne (ncol (tmt_screen vt))
                (nline (tmt_screen vt)) 0 w tg).
Qed.






(** X17. With the output going to another terminal object than the
    screen it reads, one pass of [writescreen] over a well-formed
    screen returns; the buffers it hands to [tmt_write] are, row by row
    and left to right, the conversions of the first [ncol] characters of
    each dirty row among the first [nline] (the replacement character
    where a character has no conversion), and the only change to the
    state is that the target terminal has been fed those buffers in that
    order. *)
Theorem writescreen_unaliased tmt w vt tg :
  tmt <> screen (tui_globalcontext w) ->
  tmts w !! screen (tui_globalcontext w) = Some vt ->
  tmts w !! tmt = Some tg ->
  well_formed_screen (tmt_screen vt) ->
  writescreen tmt w
  = Ret (screen_output (tmt_screen vt))
        (with_tmts (<[tmt := foldl tmt_write tg (screen_output (tmt_screen vt))]>
                      (tmts w)) w).
Proof. apply writescreen_unaliased_eq. Qed.



(** X20. Also when the pass writes to the terminal whose screen it
    reads, as [render_window] has it: over a well-formed screen, and
    with a [tmt_write] that keeps the dimensions and clears no flag, the
    pass returns, and every buffer it handed to [tmt_write] is the
    conversion of a character or the replacement character. *)
Theorem writescreen_returns_encoded tmt w vt0 :
  write_keeps_shape tmt_screen tmt_write ->
  write_keeps_dirty tmt_screen tmt_write ->
  tmts w !! screen (tui_globalcontext w) = Some vt0 ->
  is_Some (tmts w !! tmt) ->
  well_formed_screen (tmt_screen vt0) ->
  exists out w',
    writescreen tmt w = Ret out w' /\ Forall (encoded wctomb) out.
Proof.
  intros Hshape Hdirty Hvt0 Htgt [Hnline Hncol].
  destruct (write_lines_inv tmt_screen tmt_write wctomb
              (screen (tui_globalcontext w)) tmt w Hshape Hdirty
              (nline (tmt_screen vt0)) w vt0 (ncol (tmt_screen vt0)) 0)
    as (out & w' & Hret & _).
  - by apply (pass_inv_start _ _ _ _ vt0).
  - done.
  - unfold screen_shape. rewrite length_fmap. simpl. lia.
  - done.
  - assert (Hws : writescreen tmt w = Ret out w').
    { unfold writescreen. by rewrite Hvt0. }
    exists out, w'. split; [done|].
    by apply (writescreen_output tmt_screen tmt_write wctomb tmt w out w').
Qed.

End RenderMore.

(** ** Containment at the end of the coordinate range *)

(** X21. The sum of a rectangle's origin and extent is not reduced
    modulo 2^16: a rectangle that reaches to or beyond column 65535
    contains every column from its left edge on (for a row within its
    height), instead of wrapping around to the low columns. *)
Theorem inComponent_no_wrap (c : Component) (px py : Z) :
  is_position (pos c) -> is_uint16 px -> is_uint16 py ->
  UINT16_MAX <= p_x (pos c) + p_width (pos c) ->
  p_x (pos c) <= px ->
  p_y (pos c) <= py <= p_y (pos c) + p_height (pos c) ->
  inComponent c px py = true.
Proof.
  intros (Hx & Hy & Hw & Hh) Hpx Hpy Hbig Hleft Hrow.
  unfold inComponent. rewrite to_bool_land4.
  rewrite !int_add_uint16 by assumption.
  rewrite !andb_true_iff, !Z.geb_le, !Z.leb_le.
  unfold is_uint16 in *. lia.
Qed.

(** ** Setting up again *)

Section SetUpAgain.
Context {App TMT : Type}.
Variable tmt_open : Z -> Z -> gmap N TMT -> ptr * gmap N TMT.
Implicit Types (w : @World App TMT).

(** Tear-down keeps the system's locales and window size, and a locale
    stays selected. *)
Lemma tui_deinit_os_frame w w1 :
  tui_deinit w = Ret tt w1 ->
  os_locales (os w1) = os_locales (os w) /\
  os_ws_row (os w1) = os_ws_row (os w) /\
  os_ws_col (os w1) = os_ws_col (os w) /\
  (is_Some (os_locale (os w)) -> is_Some (os_locale (os w1))).
Proof.
  unfold tui_deinit. destruct (_tui_active w =? 0); [by intros [= <-]|].
  run_actions. simpl. unfold os_setlocale.
  destruct (_old_locale w) as [name|]; [case_bool_decide|];
    intros [= <-]; simpl; repeat split; try done; by eauto.
Qed.

(** X22. The runtime can be set up again after a tear-down: set-up,
    tear-down and set-up in a row return with the runtime active, the
    registry empty, and the terminal mode and signal handlers of before
    the first set-up saved as the ones to restore. *)
Theorem tui_init_after_deinit w0 (l u : string) :
  os_locale (os w0) = Some l ->
  utf8_locale (os_locales (os w0)) = Some u ->
  is_uint16 (os_ws_row (os w0)) -> is_uint16 (os_ws_col (os w0)) ->
  exists w3,
    (tui_init tmt_open ;;; tui_deinit ;;; tui_init tmt_open) w0 = Ret tt w3 /\
    _tui_active w3 = 1 /\
    registry (tui_globalcontext w3) = [] /\
    _old_tio w3 = os_tio (os w0) /\
    _old_sigint w3 = os_sigint (os w0) /\
    _old_sigterm w3 = os_sigterm (os w0) /\
    _old_sigwinch w3 = os_sigwinch (os w0) /\
    os_tio (os w3) = raw_mode (os_tio (os w0)).
Proof.
  intros Hloc Hutf Hrow Hcol.
  destruct (tui_init_returns tmt_open w0 l u Hloc Hutf Hrow Hcol)
    as (w1 & Hinit1 & Hact1 & (Htio1 & Hint1 & Hterm1 & Hwinch1 & _)
        & (_ & _ & _ & _ & Hlocale1) & (Hlocs1 & Hr1 & Hc1) & _).
  destruct (tui_deinit_active w1) as (w2 & Hret & _ & _ & H1 & H2 & H3 & H4);
    [lia|].
  destruct (tui_deinit_os_frame w1 w2 Hret) as (Hlocs2 & Hr2 & Hc2 & Hsome).
  destruct Hsome as [l2 Hlocale2]; [by eexists|].
  destruct (tui_init_returns tmt_open w2 l2 u) as (w3 & Hinit3 & Hact3
    & (Htio3 & Hint3 & Hterm3 & Hwinch3 & _) & (Hraw3 & _) & _ & Hctx3 & _);
    [done|by rewrite Hlocs2, Hlocs1|by rewrite Hr2, Hr1|by rewrite Hc2, Hc1|].
  exists w3. unfold bind. rewrite Hinit1, Hret, Hinit3.
  split; [done|]. split; [done|].
  split; [unfold registry; by rewrite Hctx3|].
  rewrite Htio3, Hint3, Hterm3, Hwinch3, Hraw3, H1, H2, H3, H4.
  by rewrite Htio1, Hint1, Hterm1, Hwinch1.
Qed.

End SetUpAgain.

(** Set-up, tear-down and set-up of the example system. *)
Lemma tui_init_after_deinit_witness :
  exists w3 : ExWorld,
    (tui_init vt_open ;;; tui_deinit ;;; tui_init vt_open) world_inactive
    = Ret tt w3 /\
    _tui_active w3 = 1 /\ _old_tio w3 = os_tio example_os.
Proof.
  destruct (tui_init_after_deinit vt_open world_inactive "C" "C.UTF-8")
    as (w3 & Hret & Hact & _ & Htio & _).
  - reflexivity.
  - reflexivity.
  - split; simpl; unfold UINT16_MAX; lia.
  - split; simpl; unfold UINT16_MAX; lia.
  - exists w3. split; [exact Hret|]. split; [exact Hact|exact Htio].
Defined.

(** ** Closed instances of the further properties *)

(** Raising the unregistered 9 in [world_123] drops member 3. *)
Lemma raiseComponent_unregistered_witness :
  exists w' : ExWorld,
    raiseComponent 9%N world_123 = Ret tt w' /\
    registry (tui_globalcontext w') = [9%N; 1%N; 2%N].
Proof.
  destruct (raiseComponent_unregistered world_123 9%N) as (w' & Hret & Hreg & _).
  - simpl. lia.
  - simpl. lia.
  - vm_compute. intros Hin.
    repeat (apply elem_of_cons in Hin as [Hin|Hin]; [discriminate Hin|]).
    by apply elem_of_nil in Hin.
  - exists w'. split; [exact Hret|exact Hreg].
Defined.

(** Raising 2 and then 3 in [world_123]. *)
Lemma raiseComponent_twice_witness :
  exists w2 : ExWorld,
    (raiseComponent 2%N ;;; raiseComponent 3%N) world_123 = Ret tt w2 /\
    registry (tui_globalcontext w2) = [3%N; 2%N; 1%N].
Proof.
  destruct (raiseComponent_twice world_123 2%N 3%N) as (w2 & Hret & Hreg & _).
  - change (NoDup [1%N; 2%N; 3%N]). apply (bool_decide_unpack _). reflexivity.
  - change (2%N ∈ [1%N; 2%N; 3%N]). apply (bool_decide_unpack _). reflexivity.
  - change (3%N ∈ [1%N; 2%N; 3%N]). apply (bool_decide_unpack _). reflexivity.
  - discriminate.
  - exists w2. split; [exact Hret|exact Hreg].
Defined.

(** Raising 3 in [world_abc]: the next key goes to its handler 33. *)
Lemma raised_component_first_witness :
  exists w' w'' : ExWorld,
    raiseComponent 3%N world_abc = Ret tt w' /\
    dispatch_loop ex_onClick ex_onKeypress dispatch_fuel 0 (key_pressed 97) w'
    = Ret (set_handled (key_pressed 97) true) w'' /\
    app w'' = app w' ++ [33%N].
Proof.
  destruct (raised_component_first ex_onClick ex_onKeypress world_abc 3%N
              (overlap_back None (Some 33%N)) (key_pressed 97)
              (ex_onKeypress 33%N {| key := 97 |}))
    as (w' & Hret & Hloop).
  - change (3%N ∈ [1%N; 2%N; 3%N]). apply (bool_decide_unpack _). reflexivity.
  - reflexivity.
  - left. split; [reflexivity|]. eexists. reflexivity.
  - split; simpl; unfold UINT16_MAX; lia.
  - reflexivity.
  - exists w'. eexists. split; [exact Hret|]. rewrite Hloop.
    split; reflexivity.
Defined.


(** Set-up of the example system. *)
Lemma tui_init_establishes_witness :
  exists w : ExWorld,
    tui_init vt_open world_inactive = Ret tt w /\
    _tui_active w = 1 /\
    os_locale (os w) = Some "C.UTF-8"%string.
Proof.
  destruct (tui_init_establishes vt_open world_inactive "C" "C.UTF-8")
    as (w & Hret & Hact & H).
  - reflexivity.
  - reflexivity.
  - split; simpl; unfold UINT16_MAX; lia.
  - split; simpl; unfold UINT16_MAX; lia.
  - exists w. split; [exact Hret|]. split; [exact Hact|]. apply H.
Defined.

(** Set-up where the locale cannot be queried. *)
Lemma tui_init_failure_leaves_raw_mode_witness :
  exists w' : ExWorld,
    tui_init vt_open world_no_locale = Exited 1 w' /\
    os_tio (os w') = raw_mode (os_tio example_os).
Proof.
  destruct (tui_init_failure_leaves_raw_mode vt_open world_no_locale)
    as (w' & calls & Hret & _ & Htio & _).
  - reflexivity.
  - left. reflexivity.
  - exists w'. split; [exact Hret|exact Htio].
Defined.


(** Two set-ups and a tear-down of the example system. *)
Lemma tui_init_twice_loses_saved_state_witness :
  exists w3 : ExWorld,
    (tui_init vt_open ;;; tui_init vt_open ;;; tui_deinit) world_inactive
    = Ret tt w3 /\
    os_tio (os w3) = raw_mode (os_tio example_os) /\
    os_tio (os w3) <> os_tio example_os.
Proof.
  destruct (tui_init_twice_loses_saved_state vt_open world_inactive "C" "C.UTF-8")
    as (w3 & Hret & _ & Htio & _).
  - reflexivity.
  - reflexivity.
  - split; simpl; unfold UINT16_MAX; lia.
  - split; simpl; unfold UINT16_MAX; lia.
  - exists w3. split; [exact Hret|]. split; [exact Htio|].
    rewrite Htio. discriminate.
Defined.

(** SIGINT on [world_active]. *)
Lemma handle_event_after_sigint_witness :
  exists w' : ExWorld,
    handle_event ex_onClick ex_onKeypress ex_resize
                 (run_sigint_sigterm_handler world_active)
    = Ret {| handled := Some true; kind := Some END; payload := Indeterminate |} w' /\
    _tui_active w' = 0.
Proof.
  destruct (handle_event_after_sigint ex_onClick ex_onKeypress ex_resize
              world_active) as (w' & Hret & Hoff & _).
  - discriminate.
  - reflexivity.
  - exists w'. split; [exact Hret|exact Hoff].
Defined.


(** [handle_event] and then [render_window] on [world_active]. *)
Lemma handle_event_then_render_window_witness :
  render_window vt_screen vt_write ex_wctomb ex_render world_active = Fault.
Proof.
  apply (handle_event_then_render_window vt_screen vt_write ex_wctomb
           ex_onClick ex_onKeypress ex_render ex_resize
           world_active Event_uninitialized world_active).
  - reflexivity.
  - vm_compute. reflexivity.
  - discriminate.
Defined.

(** An [END] event run through the loop on [world_null_slot]. *)
Lemma dispatch_loop_other_kinds_witness :
  dispatch_loop ex_onClick ex_onKeypress dispatch_fuel 0
    (set_kind Event_uninitialized END) world_null_slot
  = Ret (set_kind Event_uninitialized END) world_null_slot.
Proof.
  apply (dispatch_loop_other_kinds ex_onClick ex_onKeypress).
  - split; simpl; unfold UINT16_MAX; lia.
  - left. reflexivity.
Defined.

(** The click on [world_overlap] comes back a mouse event at (7, 7). *)
Lemma dispatch_loop_keeps_kind_payload_witness :
  exists (e' : Event) (w' : ExWorld),
    dispatch_loop ex_onClick ex_onKeypress dispatch_fuel 0 (click_at 7 7)
                  world_overlap = Ret e' w' /\
    kind e' = Some MOUSE /\ payload e' = payload (click_at 7 7).
Proof.
  eexists. eexists. split; [vm_compute; reflexivity|].
  eapply (dispatch_loop_keeps_kind_payload ex_onClick ex_onKeypress
            dispatch_fuel 0 (click_at 7 7) world_overlap).
  vm_compute. reflexivity.
Defined.

(** A key on [world_null_slot]: slot 1 is null. *)
Lemma dispatch_loop_bad_slot_witness :
  dispatch_loop ex_onClick ex_onKeypress dispatch_fuel 0 (key_pressed 97)
                world_null_slot = Fault.
Proof.
  apply (dispatch_loop_bad_slot ex_onClick ex_onKeypress
           (key_pressed 97) world_null_slot 1).
  - left. split; [reflexivity|]. eexists. reflexivity.
  - split; simpl; unfold UINT16_MAX; lia.
  - simpl. lia.
  - intros k Hk. assert (k = 0%nat) as -> by lia.
    exists 1%N, (overlap_front None None). repeat split; reflexivity.
  - right. exists 0%N. split; reflexivity.
Defined.

(** The example screen written to a second terminal. *)
Lemma writescreen_unaliased_witness :
  exists w' : ExWorld,
    writescreen vt_screen vt_write ex_wctomb 200%N world_two_terminals
    = Ret [[104]; [239; 191; 189]] w'.
Proof.
  eexists.
  rewrite (writescreen_unaliased vt_screen vt_write ex_wctomb 200%N
             world_two_terminals
             {| vt_screen := example_screen; vt_fed := [] |}
             {| vt_screen := example_screen; vt_fed := [] |}).
  - reflexivity.
  - discriminate.
  - reflexivity.
  - reflexivity.
  - split; [simpl; lia|]. repeat constructor.
Defined.



(** The pass of [world_screen] onto its own terminal. *)
Lemma writescreen_returns_encoded_witness :
  exists out (w' : ExWorld),
    writescreen vt_screen vt_write ex_wctomb 100%N world_screen = Ret out w' /\
    Forall (encoded ex_wctomb) out.
Proof.
  apply (writescreen_returns_encoded vt_screen vt_write ex_wctomb 100%N
           world_screen {| vt_screen := example_screen; vt_fed := [] |}).
  - exact vt_write_keeps_shape.
  - exact vt_write_keeps_dirty.
  - reflexivity.
  - eexists. reflexivity.
  - split; [simpl; lia|]. repeat constructor.
Defined.

(** A rectangle from column 65530 with width 100, at column 65535. *)
Lemma inComponent_no_wrap_witness :
  inComponent (example_component
                 {| p_x := 65530; p_y := 0; p_width := 100; p_height := 10 |}
                 None None None) 65535 5 = true.
Proof.
  apply inComponent_no_wrap.
  - cbv; intuition discriminate.
  - cbv; intuition discriminate.
  - cbv; intuition discriminate.
  - unfold UINT16_MAX. simpl. lia.
  - simpl. lia.
  - simpl. lia.
Defined.
